(** * ArtifexAI backend: the feature pipeline, the reference store and the
    price rescaler of [backend/main.py]

  Conventions of the embedding.

  - Python [int] is [Z]; Python [float] (binary64) is idealised as a real
    number [R]: rounding, infinities and NaN are outside the model.
  - Python [str] is [string]; [lower], [strip] and [split] are modelled on
    the ASCII range.
  - A Python [dict] whose insertion order is observed (the feature
    dictionary, the one-row DataFrame, a JSON response) is an association
    list in insertion order.
  - Code that can raise returns [exc A]; [try ... except Exception] is
    [try_except]. *)

From Stdlib Require Import Reals.Reals Lra Lia ZArith List Bool String Ascii.
From Stdlib Require Import DecimalString.
Import ListNotations.

Open Scope string_scope.
Open Scope Z_scope.
Open Scope R_scope.

(** ** Exceptions *)

Inductive pyexn : Type :=
| KeyError (key : string)
| IndexError
| ZeroDivisionError
| AttributeError
| TypeError
| LibraryError (what : string)
| HTTPException (status_code : Z).

Inductive exc (A : Type) : Type :=
| Ok (a : A)
| Raise (e : pyexn).

Arguments Ok {A} a.
Arguments Raise {A} e.

Definition bind {A B : Type} (m : exc A) (k : A -> exc B) : exc B :=
match m with
| Ok a => k a
| Raise e => Raise e
end.

Notation "x <- m ;; k" := (bind m (fun x => k))
(at level 61, m at next level, right associativity).

(** [try: body except Exception as e: handler e]. *)
Definition try_except {A : Type} (body : exc A) (handler : pyexn -> exc A) : exc A :=
match body with
| Ok a => Ok a
| Raise e => handler e
end.

Definition is_ok {A : Type} (m : exc A) : bool :=
match m with Ok _ => true | Raise _ => false end.

(** ** Strings *)

Module PyStr.

Definition lower_ascii (c : ascii) : ascii :=
  let n := nat_of_ascii c in
  if ((65 <=? n) && (n <=? 90))%nat then ascii_of_nat (n + 32) else c.

(** [s.lower()] *)
Fixpoint lower (s : string) : string :=
  match s with
  | EmptyString => EmptyString
  | String c s' => String (lower_ascii c) (lower s')
  end.

(** [c.isspace()] on ASCII: tab, newline, vertical tab, form feed, carriage
    return, the four separators 28..31 and the space. *)
Definition isspace (c : ascii) : bool :=
  let n := nat_of_ascii c in
  (((9 <=? n) && (n <=? 13)) || ((28 <=? n) && (n <=? 32)))%nat.

Fixpoint lstrip (s : string) : string :=
  match s with
  | EmptyString => EmptyString
  | String c s' => if isspace c then lstrip s' else s
  end.

Fixpoint rstrip (s : string) : string :=
  match s with
  | EmptyString => EmptyString
  | String c s' =>
      match rstrip s' with
      | EmptyString => if isspace c then EmptyString else String c EmptyString
      | r => String c r
      end
  end.

(** [s.strip()] *)
Definition strip (s : string) : string := lstrip (rstrip s).

(** [sub in s] *)
Fixpoint contains (sub s : string) : bool :=
  prefix sub s ||
  match s with
  | EmptyString => false
  | String _ s' => contains sub s'
  end.

(** [len(s.split())]: the number of maximal runs of non-space characters.
    [inword] tells whether the previous character belonged to a word. *)
Fixpoint count_words (inword : bool) (s : string) : Z :=
  match s with
  | EmptyString => 0%Z
  | String c s' =>
      if isspace c then count_words false s'
      else ((if inword then 0 else 1) + count_words true s')%Z
  end.

Definition split_len (s : string) : Z := count_words false s.

(** Truth value of a string: non-empty. *)
Definition truthy (s : string) : bool :=
  match s with EmptyString => false | _ => true end.

End PyStr.

(** ** Reference store ([DatabaseManager]) *)

(** A row of table [artists]; [name] is the primary key. *)
Record ArtistRow : Type := mkArtistRow {
ar_name : string;
ar_frequency : Z;
ar_median_price : R;
ar_price_std : R
}.

(** A row of table [technique_artist_medians]; the primary key is
  [(technique, artist)]. *)
Record TechArtistRow : Type := mkTechArtistRow {
tr_technique : string;
tr_artist : string;
tr_median_price : R;
tr_sample_count : Z
}.

(** The dictionary returned by [get_artist_data]. *)
Record ArtistData : Type := mkArtistData {
frequency : Z;
median_price : R;
price_std : R
}.

(** The dictionary returned by [get_tech_artist_median]. *)
Record TechArtistData : Type := mkTechArtistData {
ta_median_price : R;
ta_sample_count : Z
}.

(** The database file behind [db_path]: its two tables. *)
Record DatabaseManager : Type := mkDatabaseManager {
db_path : string;
artists : list ArtistRow;
technique_artist_medians : list TechArtistRow
}.

Module DB.

(** [INSERT OR REPLACE INTO artists ...] *)
Fixpoint insert_or_replace_artist (row : ArtistRow) (t : list ArtistRow)
  : list ArtistRow :=
  match t with
  | [] => [row]
  | r :: t' =>
      if String.eqb (ar_name r) (ar_name row) then row :: t'
      else r :: insert_or_replace_artist row t'
  end.

Definition same_key (r row : TechArtistRow) : bool :=
  String.eqb (tr_technique r) (tr_technique row)
  && String.eqb (tr_artist r) (tr_artist row).

(** [INSERT OR REPLACE INTO technique_artist_medians ...] *)
Fixpoint insert_or_replace_tech (row : TechArtistRow) (t : list TechArtistRow)
  : list TechArtistRow :=
  match t with
  | [] => [row]
  | r :: t' =>
      if same_key r row then row :: t'
      else r :: insert_or_replace_tech row t'
  end.

Definition executemany {Row : Type} (ins : Row -> list Row -> list Row)
  (rows : list Row) (t : list Row) : list Row :=
  fold_left (fun acc row => ins row acc) rows t.

Definition sample_artists : list ArtistRow :=
  [ mkArtistRow "pablo picasso" 150 50000 25000;
    mkArtistRow "salvador dali" 80 30000 15000;
    mkArtistRow "vincent van gogh" 200 75000 40000;
    mkArtistRow "claude monet" 120 40000 20000;
    mkArtistRow "andy warhol" 100 35000 18000 ].

Definition sample_tech_artist : list TechArtistRow :=
  [ mkTechArtistRow "oil on canvas" "pablo picasso" 55000 25;
    mkTechArtistRow "oil on canvas" "vincent van gogh" 80000 30;
    mkTechArtistRow "oil on canvas" "claude monet" 45000 20;
    mkTechArtistRow "lithograph" "andy warhol" 25000 15;
    mkTechArtistRow "etching" "salvador dali" 20000 10;
    mkTechArtistRow "watercolor" "pablo picasso" 30000 12;
    mkTechArtistRow "screenprint" "andy warhol" 15000 8 ].

(** [DatabaseManager.init_database]: the tables exist afterwards, and are
    seeded when [artists] is empty. *)
Definition init_database (db : DatabaseManager) : DatabaseManager :=
  if (Z.of_nat (List.length (artists db)) =? 0)%Z then
    mkDatabaseManager (db_path db)
      (executemany insert_or_replace_artist sample_artists (artists db))
      (executemany insert_or_replace_tech sample_tech_artist
         (technique_artist_medians db))
  else db.

(** [DatabaseManager(db_path)] on a database file that does not exist yet. *)
Definition new (path : string) : DatabaseManager :=
  init_database (mkDatabaseManager path [] []).

(** [SELECT frequency, median_price, price_std FROM artists WHERE name = ?]
    followed by [fetchone()]. *)
Definition select_artist (db : DatabaseManager) (key : string)
  : option ArtistRow :=
  find (fun r => String.eqb (ar_name r) key) (artists db).

Definition select_tech_artist (db : DatabaseManager) (technique artist : string)
  : option TechArtistRow :=
  find (fun r => String.eqb (tr_technique r) technique
                 && String.eqb (tr_artist r) artist)
       (technique_artist_medians db).

Definition default_artist_data : ArtistData := mkArtistData 1 500 250.

Definition get_artist_data (db : DatabaseManager) (artist_name : string)
  : ArtistData :=
  match select_artist db (PyStr.lower artist_name) with
  | Some result =>
      mkArtistData (ar_frequency result) (ar_median_price result)
        (ar_price_std result)
  | None => default_artist_data
  end.

Definition default_tech_artist_data : TechArtistData := mkTechArtistData 1000 1.

Definition get_tech_artist_median (db : DatabaseManager)
  (technique artist : string) : TechArtistData :=
  match select_tech_artist db (PyStr.lower technique) (PyStr.lower artist) with
  | Some result =>
      mkTechArtistData (tr_median_price result) (tr_sample_count result)
  | None => default_tech_artist_data
  end.

End DB.

(** ** Numbers *)

Module Py.

(** [np.log1p] and [np.expm1]. *)
Definition log1p (x : R) : R := ln (1 + x).
Definition expm1 (x : R) : R := exp x - 1.

(** [np.log2]. *)
Definition log2 (x : R) : R := ln x / ln 2.

(** The builtin [max(a, b)]: [b] when [b > a], else [a]. *)
Definition max (a b : R) : R := if Rlt_dec a b then b else a.

(** The builtin [min(a, b)]: [b] when [b < a], else [a]. *)
Definition min (a b : R) : R := if Rlt_dec b a then b else a.

(** [x / y] on floats, and on ints: raises [ZeroDivisionError] on a zero
    divisor. *)
Definition truediv (x y : R) : exc R :=
if Req_dec_T y 0 then Raise ZeroDivisionError else Ok (x / y).

(** [x or 0.0] for an [Optional[float]]: [None] and [0.0] are falsy. *)
Definition or_zero (x : option R) : R :=
match x with
| Some v => if Req_dec_T v 0 then 0 else v
| None => 0
end.

(** [1 if b else 0]. *)
Definition flag (b : bool) : Z := if b then 1%Z else 0%Z.

(** [str(z)] for an int. *)
Definition str_of_int (z : Z) : string := NilZero.string_of_int (Z.to_int z).

End Py.

(** ** Cells, dictionaries and one-row frames *)

(** A cell of the feature dictionary. *)
Inductive value : Type :=
| VStr (s : string)
| VInt (z : Z)
| VFloat (r : R).

(** A [dict] with string keys in insertion order; also a one-row
    [DataFrame], whose columns are the keys. *)
Definition dict : Type := list (string * value).

Module Dict.

Definition keys (d : dict) : list string := map fst d.

(** [d.get(k)] *)
Fixpoint get (k : string) (d : dict) : option value :=
match d with
| [] => None
| (k', v) :: d' => if String.eqb k' k then Some v else get k d'
end.

(** [k in d] *)
Definition mem (k : string) (d : dict) : bool :=
match get k d with Some _ => true | None => false end.

(** [d[k] = v]: an existing key keeps its position. *)
Fixpoint set (k : string) (v : value) (d : dict) : dict :=
match d with
| [] => [(k, v)]
| (k', v') :: d' =>
    if String.eqb k' k then (k', v) :: d' else (k', v') :: set k v d'
end.

End Dict.

(** What the embedding takes from pandas and the Python runtime. *)
Class Externals : Type := {
  (** [str(x)] of a float cell, as [astype(str)] prints it. *)
  str_of_float : R -> string;
  (** [pd.to_numeric(s, errors='coerce')] on a text cell; [None] is NaN. *)
  parse_number : string -> option R;
  (** The builtin [round(x, ndigits)]. *)
  py_round : R -> Z -> R
}.

(** ** Request and response models *)

(** Constraints a pydantic [Field] can carry on a number. *)
Record FieldInfo : Type := mkField {
  description : string;
  gt : option R;
  ge : option R;
  lt : option R;
  le : option R
}.

(** [Field(default, description=...)]: no numeric constraint. *)
Definition Field (descr : string) : FieldInfo :=
mkField descr None None None None.

Record ArtworkInput : Type := mkArtworkInput {
  artist : string;
  object_type : string;
  technique : string;
  signature : string;
  condition : string;
  edition_type : string;
  year : Z;
  width : R;
  height : R;
  has_edition : bool;
  has_certificate : bool;
  has_frame : bool;
  has_damage : bool;
  expert : string;
  colorfulness_score : option R;
  svd_entropy : option R;
  title : option string;
  title_word_count : option Z
}.

Module ArtworkInputModel.

(** The declarations of the numeric fields of [ArtworkInput]. *)
Definition year_field : FieldInfo := Field "Year created".
Definition width_field : FieldInfo := Field "Width in cm".
Definition height_field : FieldInfo := Field "Height in cm".

Definition holds (c : option R) (test : R -> R -> bool) (x : R) : bool :=
match c with
| Some bound => test x bound
| None => true
end.

Definition Rltb (x y : R) : bool := if Rlt_dec x y then true else false.
Definition Rleb (x y : R) : bool := if Rle_dec x y then true else false.

(** pydantic's check of one number against the constraints of its field. *)
Definition check (f : FieldInfo) (x : R) : bool :=
holds (gt f) (fun x b => Rltb b x) x
&& holds (ge f) (fun x b => Rleb b x) x
&& holds (lt f) (fun x b => Rltb x b) x
&& holds (le f) (fun x b => Rleb x b) x.

(** Validation of a request body whose fields already have their declared
    types. *)
Definition validate (a : ArtworkInput) : bool :=
check year_field (IZR (year a))
&& check width_field (width a)
&& check height_field (height a).

End ArtworkInputModel.

Record PredictionResponse : Type := mkPredictionResponse {
  predicted_price : R;
  log_price : R;
  confidence : string;
  artist_popularity : string;
  image_quality : string;
  features_used : Z;
  model_type : string
}.

(** ** Global state *)

(** [feature_info.json]: the keys the backend reads, and the names of the
    others. *)
Record FeatureInfo : Type := mkFeatureInfo {
  feature_names : option (list string);
  categorical_indices : option (list nat);
  n_features : option Z;
  other_keys : list string
}.

Definition is_some {A : Type} (o : option A) : bool :=
match o with Some _ => true | None => false end.

(** Truth value of the dictionary: it has a key. *)
Definition feature_info_truthy (fi : FeatureInfo) : bool :=
is_some (feature_names fi) || is_some (categorical_indices fi)
|| is_some (n_features fi)
|| match other_keys fi with [] => false | _ => true end.

(** The loaded regressor: [model.predict(df)[0]]. *)
Definition Model : Type := dict -> exc R.

Record AppState : Type := mkAppState {
  model : option Model;
  model_loaded : bool;
  feature_info : option FeatureInfo;
  db_manager : option DatabaseManager
}.

(** [app_state.feature_info] when it is truthy. *)
Definition truthy_feature_info (st : AppState) : option FeatureInfo :=
match feature_info st with
| Some fi => if feature_info_truthy fi then Some fi else None
| None => None
end.

(** ** Feature Vector Builder ([create_all_57_features]) *)

Module Features.

Definition edition_map : list (string * R) :=
[ ("unique", 1); ("numbered", 2); ("limited", 3); ("open", 4); ("unknown", 0) ].

(** [edition_map.get(key, default)] *)
Fixpoint edition_map_get (key : string) (m : list (string * R)) (default : R) : R :=
match m with
| [] => default
| (k, v) :: m' => if String.eqb k key then v else edition_map_get key m' default
end.

(** Group 9: the size bucket of an area. *)
Definition size_category (area : R) : string :=
if Rle_dec area 100 then "tiny"
else if Rle_dec area 1000 then "small"
else if Rle_dec area 5000 then "medium"
else "large".

(** Group 10: [age = 2024 - input_data.year] and its four features. *)
Definition age (input_data : ArtworkInput) : Z := (2024 - year input_data)%Z.
Definition log_age (age : Z) : R := Py.log1p (IZR (Z.max 0 age)).
Definition is_antique (age : Z) : Z := Py.flag (100 <=? age)%Z.
Definition is_vintage (age : Z) : Z := Py.flag ((20 <=? age) && (age <? 100))%Z.
Definition is_modern (age : Z) : Z := Py.flag (age <? 20)%Z.

(** Group 11: the year bucket. *)
Definition year_category (year : Z) : string :=
if (year <? 1900)%Z then "pre_1900"
else if (year <? 1950)%Z then "early_1900s"
else if (year <? 1980)%Z then "mid_1900s"
else if (year <? 2000)%Z then "late_1900s"
else "modern".

(** Group 18: the title word count. *)
Definition title_words (input_data : ArtworkInput) : Z :=
let from_count :=
  match title_word_count input_data with
  | Some n => n
  | None => 3%Z
  end in
match title input_data with
| Some t =>
    if PyStr.truthy t && PyStr.truthy (PyStr.strip t)
       && negb (String.eqb (PyStr.strip t) "Untitled")
    then PyStr.split_len (PyStr.strip t)
    else from_count
| None => from_count
end.

(** Group 19: the market ratio. *)
Definition price_vs_tech_artist_median (tech_artist_median artist_median : R) : R :=
if Rlt_dec 0 tech_artist_median then
  if Rlt_dec 0 artist_median then tech_artist_median / artist_median else 1
else 1.

(** [d[key]] on the optional image-feature dictionary. *)
Definition getitem (key : string) (d : dict) : exc value :=
match Dict.get key d with
| Some v => Ok v
| None => Raise (KeyError key)
end.

(** Group 7: the two image cells. A non-empty [image_features] dictionary
    wins over the fields of the request. *)
Definition image_cells (input_data : ArtworkInput) (image_features : option dict)
  : exc (value * value) :=
let from_input :=
  Ok (VFloat (Py.or_zero (colorfulness_score input_data)),
      VFloat (Py.or_zero (svd_entropy input_data))) in
match image_features with
| Some (kv :: d) =>
    c <- getitem "colorfulness_score" (kv :: d) ;;
    s <- getitem "svd_entropy" (kv :: d) ;;
    Ok (c, s)
| Some [] => from_input
| None => from_input
end.

(** The dictionary [features] once the cells that can raise are known: the
    two image cells, the three ratios of group 8 and the rarity of group 12.
    Keys are in the order of their first assignment. *)
Definition features_dict (db : DatabaseManager) (input_data : ArtworkInput)
  (img : value * value)
  (aspect_ratio area_per_width area_per_height artist_rarity : R) : dict :=
let artist_data := DB.get_artist_data db (artist input_data) in
let freq := frequency artist_data in
let OBJECT := PyStr.lower (object_type input_data) in
let ARTIST := PyStr.strip (PyStr.lower (artist input_data)) in
let EXPERT := PyStr.lower (expert input_data) in
let TECHNIQUE_SIMPLE := PyStr.lower (technique input_data) in
let SIGNATURE_SIMPLE := PyStr.lower (signature input_data) in
let CONDITION_SIMPLE := PyStr.lower (condition input_data) in
let EDITION_TYPE := PyStr.lower (edition_type input_data) in
let w := width input_data in
let h := height input_data in
let area := w * h in
let has_hand_signed := Py.flag (PyStr.contains "hand" SIGNATURE_SIMPLE) in
let has_plate_signed := Py.flag (PyStr.contains "plate" SIGNATURE_SIMPLE) in
let has_unsigned := Py.flag (PyStr.contains "unsigned" SIGNATURE_SIMPLE) in
let has_etching := Py.flag (PyStr.contains "etching" TECHNIQUE_SIMPLE) in
let has_lithograph := Py.flag (PyStr.contains "lithograph" TECHNIQUE_SIMPLE) in
let has_woodcut := Py.flag (PyStr.contains "woodcut" TECHNIQUE_SIMPLE) in
let has_screenprint := Py.flag (PyStr.contains "screenprint" TECHNIQUE_SIMPLE) in
let has_limited_edition := Py.flag (PyStr.contains "limited" EDITION_TYPE) in
let has_certificate_ := Py.flag (has_certificate input_data) in
let has_frame_ := Py.flag (has_frame input_data) in
let has_damage_ := Py.flag (has_damage input_data) in
let has_edition_ := Py.flag (has_edition input_data) in
let a := age input_data in
let technique_count :=
  (has_etching + has_lithograph + has_woodcut + has_screenprint)%Z in
let technique_score :=
  (has_etching * 2 + has_lithograph * 2 + has_woodcut * 3 + has_screenprint * 1)%Z in
let tech_artist_data :=
  DB.get_tech_artist_median db (technique input_data) (artist input_data) in
[ ("OBJECT", VStr OBJECT);
     ("ARTIST", VStr ARTIST);
     ("EXPERT", VStr EXPERT);
     ("TECHNIQUE_SIMPLE", VStr TECHNIQUE_SIMPLE);
     ("SIGNATURE_SIMPLE", VStr SIGNATURE_SIMPLE);
     ("CONDITION_SIMPLE", VStr CONDITION_SIMPLE);
     ("edition_type", VFloat (edition_map_get EDITION_TYPE edition_map 0));
     ("EDITION_TYPE", VStr EDITION_TYPE);
     ("width", VFloat w);
     ("height", VFloat h);
     ("area", VFloat area);
     ("EXPERT_RAW", VStr EXPERT);
     ("auction_year", VInt 2024);
     ("has_hand_signed", VInt has_hand_signed);
     ("has_plate_signed", VInt has_plate_signed);
     ("has_unsigned", VInt has_unsigned);
     ("has_etching", VInt has_etching);
     ("has_lithograph", VInt has_lithograph);
     ("has_woodcut", VInt has_woodcut);
     ("has_screenprint", VInt has_screenprint);
     ("has_limited_edition", VInt has_limited_edition);
     ("has_certificate", VInt has_certificate_);
     ("has_frame", VInt has_frame_);
     ("has_damage", VInt has_damage_);
     ("has_edition", VInt has_edition_);
     ("colorfulness_score", fst img);
     ("svd_entropy", snd img);
     ("aspect_ratio", VFloat aspect_ratio);
     ("log_area", VFloat (Py.log1p area));
     ("log_width", VFloat (Py.log1p w));
     ("log_height", VFloat (Py.log1p h));
     ("area_per_width", VFloat area_per_width);
     ("area_per_height", VFloat area_per_height);
     ("size_category", VStr (size_category area));
     ("log_age", VFloat (log_age a));
     ("is_antique", VInt (is_antique a));
     ("is_vintage", VInt (is_vintage a));
     ("is_modern", VInt (is_modern a));
     ("year_category", VStr (year_category (year input_data)));
     ("log_artist_frequency", VFloat (Py.log1p (IZR freq)));
     ("artist_rarity", VFloat artist_rarity);
     ("is_rare_artist", VInt (Py.flag (freq <=? 5)%Z));
     ("is_popular_artist", VInt (Py.flag (50 <=? freq)%Z));
     ("is_very_popular_artist", VInt (Py.flag (100 <=? freq)%Z));
     ("artist_frequency", VInt freq);
     ("technique_count", VInt technique_count);
     ("technique_score", VInt technique_score);
     ("has_multiple_techniques", VInt (Py.flag (1 <? technique_count)%Z));
     ("has_any_signature",
        VInt (Py.flag (negb (has_hand_signed =? 0)%Z || negb (has_plate_signed =? 0)%Z)));
     ("object_frequency", VFloat 100);
     ("is_rare_object", VInt 0);
     ("is_common_object", VInt 1);
     ("edition_features",
        VInt (has_edition_ + has_limited_edition + has_certificate_)%Z);
     ("physical_features", VInt (has_frame_ + has_certificate_ - has_damage_)%Z);
     ("size_artist_interaction", VFloat (area * IZR freq));
     ("technique_artist_interaction", VInt (technique_count * freq)%Z);
     ("title_word_count", VInt (title_words input_data));
     ("price_vs_tech_artist_median",
        VFloat (price_vs_tech_artist_median (ta_median_price tech_artist_data)
                  (median_price artist_data))) ].

(** The body of [create_all_57_features] up to [pd.DataFrame([features])],
    with the exceptions in the order the statements raise them. *)
Definition compute_features (db : DatabaseManager) (input_data : ArtworkInput)
  (image_features : option dict) : exc dict :=
let freq := frequency (DB.get_artist_data db (artist input_data)) in
let w := width input_data in
let h := height input_data in
let area := w * h in
img <- image_cells input_data image_features ;;
aspect_ratio <- Py.truediv w (h + 1e-8) ;;
area_per_width <- Py.truediv area (w + 1e-8) ;;
area_per_height <- Py.truediv area (h + 1e-8) ;;
artist_rarity <- Py.truediv 1 (IZR (freq + 1)) ;;
Ok (features_dict db input_data img aspect_ratio area_per_width
      area_per_height artist_rarity).

(** The keys of [features], in insertion order. *)
Definition computed_names : list string :=
[ "OBJECT"; "ARTIST"; "EXPERT"; "TECHNIQUE_SIMPLE"; "SIGNATURE_SIMPLE";
  "CONDITION_SIMPLE"; "edition_type"; "EDITION_TYPE"; "width"; "height";
  "area"; "EXPERT_RAW"; "auction_year"; "has_hand_signed"; "has_plate_signed";
  "has_unsigned"; "has_etching"; "has_lithograph"; "has_woodcut";
  "has_screenprint"; "has_limited_edition"; "has_certificate"; "has_frame";
  "has_damage"; "has_edition"; "colorfulness_score"; "svd_entropy";
  "aspect_ratio"; "log_area"; "log_width"; "log_height"; "area_per_width";
  "area_per_height"; "size_category"; "log_age"; "is_antique"; "is_vintage";
  "is_modern"; "year_category"; "log_artist_frequency"; "artist_rarity";
  "is_rare_artist"; "is_popular_artist"; "is_very_popular_artist";
  "artist_frequency"; "technique_count"; "technique_score";
  "has_multiple_techniques"; "has_any_signature"; "object_frequency";
  "is_rare_object"; "is_common_object"; "edition_features";
  "physical_features"; "size_artist_interaction";
  "technique_artist_interaction"; "title_word_count";
  "price_vs_tech_artist_median" ].

(** The default of a declared name that [features] lacks. *)
Definition fill_default (feature_name : string) : value :=
if existsb (String.eqb feature_name) ["size_category"; "year_category"]
then VStr "unknown"
else VFloat 0.

(** The loop that builds [ordered_features] from [expected_features]. *)
Definition ordered_features (expected_features : list string) (df : dict) : dict :=
fold_left
  (fun ordered feature_name =>
     Dict.set feature_name
       (match Dict.get feature_name df with
        | Some v => v
        | None => fill_default feature_name
        end)
       ordered)
  expected_features [].

(** [df[col] = f(df[col])] on the single row. *)
Fixpoint map_column (col : string) (f : value -> value) (df : dict) : dict :=
match df with
| [] => []
| (k, v) :: df' =>
    if String.eqb k col then (k, f v) :: df' else (k, v) :: map_column col f df'
end.

(** [astype(str)] on a cell. *)
Definition astype_str {E : Externals} (v : value) : value :=
match v with
| VStr s => VStr s
| VInt z => VStr (Py.str_of_int z)
| VFloat r => VStr (str_of_float r)
end.

(** The loop over [categorical_indices]: the columns at these positions
    become text; a position past the last column is skipped. *)
Definition convert_categorical {E : Externals} (categorical_indices : list nat)
  (df : dict) : dict :=
fold_left
  (fun df idx =>
     if (idx <? List.length (Dict.keys df))%nat then
       match nth_error (Dict.keys df) idx with
       | Some col_name => map_column col_name astype_str df
       | None => df
       end
     else df)
  categorical_indices df.

(** [[df.columns[i] for i in categorical_indices]]: raises on a position past
    the last column. *)
Fixpoint columns_at (df : dict) (indices : list nat) : exc (list string) :=
match indices with
| [] => Ok []
| i :: rest =>
    match nth_error (Dict.keys df) i with
    | Some c => cs <- columns_at df rest ;; Ok (c :: cs)
    | None => Raise IndexError
    end
end.

(** [pd.to_numeric(cell, errors='coerce')] followed by [fillna(0.0)]. *)
Definition to_numeric_fillna {E : Externals} (v : value) : value :=
match v with
| VStr s =>
    match parse_number s with
    | Some r => VFloat r
    | None => VFloat 0
    end
| VInt z => VInt z
| VFloat r => VFloat r
end.

(** The last loop: every column that is not at a categorical position is
    made numeric. *)
Definition convert_numeric {E : Externals} (categorical_indices : list nat)
  (df : dict) : exc dict :=
fold_left
  (fun acc col =>
     df <- acc ;;
     cats <- columns_at df categorical_indices ;;
     if existsb (String.eqb col) cats then Ok df
     else Ok (map_column col to_numeric_fillna df))
  (Dict.keys df) (Ok df).

Definition declared_categorical (st : AppState) : option (list nat) :=
match truthy_feature_info st with
| Some fi => categorical_indices fi
| None => None
end.

Definition declared_names (st : AppState) : option (list string) :=
match truthy_feature_info st with
| Some fi => feature_names fi
| None => None
end.

(** The frame after the re-projection onto the declared schema. *)
Definition align (st : AppState) (df : dict) : dict :=
match declared_names st with
| Some expected_features => ordered_features expected_features df
| None => df
end.

Definition create_all_57_features {E : Externals} (st : AppState)
  (input_data : ArtworkInput) (image_features : option dict) : exc dict :=
try_except
  (db <- match db_manager st with
         | Some db => Ok db
         | None => Raise AttributeError
         end ;;
   features <- compute_features db input_data image_features ;;
   let df := align st features in
   let df :=
     match declared_categorical st with
     | Some ci => convert_categorical ci df
     | None => df
     end in
   convert_numeric
     (match declared_categorical st with Some ci => ci | None => [] end) df)
  (fun e => Raise (HTTPException 500)).

(** [app_state.feature_info.get('categorical_indices', [])], or [[]] without
    a schema. *)
Definition categorical_positions (st : AppState) : list nat :=
match declared_categorical st with
| Some ci => ci
| None => []
end.

(** A name is at a categorical position of the columns [cols]. *)
Definition flagged (cols : list string) (categorical_indices : list nat)
  (name : string) : bool :=
existsb
  (fun i =>
     match nth_error cols i with
     | Some c => String.eqb c name
     | None => false
     end)
  categorical_indices.

(** What the last two loops do to a cell, by the kind of its column. *)
Definition coerce {E : Externals} (categorical : bool) (v : value) : value :=
if categorical then astype_str v else to_numeric_fillna v.

(** The cell [features] holds for a declared name, or its default. *)
Definition cell_or_default (features : dict) (name : string) : value :=
match Dict.get name features with
| Some v => v
| None => fill_default name
end.

End Features.

(** ** Price Rescaler and Scoring Facade *)

(** A JSON scalar of a response body. *)
Inductive json : Type :=
| JStr (s : string)
| JBool (b : bool)
| JInt (z : Z)
| JFloat (r : R).

Module Facade.

(** Lines 625-642 of [predict_price]: the tier by artist frequency, then the
    clamp. [price_pred] is the price after [np.expm1]. *)
Definition artist_scaling (price_pred : R) (frequency : Z) (median_price : R) : R :=
if (100 <=? frequency)%Z then Py.max (price_pred * 20) (median_price * 0.1)
else if (50 <=? frequency)%Z then Py.max (price_pred * 15) (median_price * 0.05)
else if (20 <=? frequency)%Z then Py.max (price_pred * 10) (median_price * 0.02)
else Py.max (price_pred * 3) 10.

Definition price_range (price_pred : R) : R :=
Py.min (Py.max price_pred 10) 1000000.

(** The price of a raw model output for an artist record. *)
Definition final_price (log_price_pred : R) (artist_data : ArtistData) : R :=
price_range
  (artist_scaling (Py.expm1 log_price_pred) (frequency artist_data)
     (median_price artist_data)).

Definition confidence_of (frequency : Z) : string :=
if (20 <=? frequency)%Z then "HIGH"
else if (5 <=? frequency)%Z then "MEDIUM"
else "LOW".

Definition popularity_of (frequency : Z) : string :=
if (50 <=? frequency)%Z then "VERY_POPULAR"
else if (10 <=? frequency)%Z then "POPULAR"
else if (5 <=? frequency)%Z then "KNOWN"
else "UNKNOWN".

(** [app_state.feature_info['n_features'] if app_state.feature_info else 0] *)
Definition features_count (st : AppState) : exc Z :=
match truthy_feature_info st with
| Some fi =>
    match n_features fi with
    | Some n => Ok n
    | None => Raise (KeyError "n_features")
    end
| None => Ok 0%Z
end.

(** The handler body of [POST /predict] on a validated request. *)
Definition predict_price {E : Externals} (st : AppState) (artwork : ArtworkInput)
  : exc PredictionResponse :=
if negb (model_loaded st) then Raise (HTTPException 503)
else
  try_except
    (features_df <- Features.create_all_57_features st artwork None ;;
     m <- match model st with
          | Some m => Ok m
          | None => Raise AttributeError
          end ;;
     log_price_pred <- m features_df ;;
     db <- match db_manager st with
           | Some db => Ok db
           | None => Raise AttributeError
           end ;;
     let artist_data := DB.get_artist_data db (artist artwork) in
     let price_pred := final_price log_price_pred artist_data in
     n <- features_count st ;;
     Ok (mkPredictionResponse
           (py_round price_pred 2)
           (py_round log_price_pred 4)
           (confidence_of (frequency artist_data))
           (popularity_of (frequency artist_data))
           "Not provided"
           n
           "CatBoost_57_Features"))
    (fun e => Raise (HTTPException 500)).

(** [POST /predict]: the body is validated against [ArtworkInput] first; a
    validation failure is answered with 422. *)
Definition post_predict {E : Externals} (st : AppState) (body : ArtworkInput)
  : exc PredictionResponse :=
if ArtworkInputModel.validate body then predict_price st body
else Raise (HTTPException 422).

(** [GET /health]. [available] is the module constant
    [IMAGE_PROCESSING_AVAILABLE]. *)
Definition health_check (available : bool) (st : AppState)
  : exc (list (string * json)) :=
n <- features_count st ;;
Ok [ ("status", JStr "healthy");
     ("model_loaded", JBool (model_loaded st));
     ("features_count", JInt n);
     ("image_processing", JBool available) ].

End Facade.

(** ** Image Feature Extractor *)

(** A pixel as [cv2.imread] delivers it: blue, green, red, each in 0..255. *)
Record bgr : Type := mkBGR { blue : Z; green : Z; red : Z }.

(** A colour raster and a grey raster, by rows. *)
Definition image : Type := list (list bgr).
Definition gray_image : Type := list (list Z).

(** What the embedding takes from OpenCV and NumPy. *)
Class ImageLib : Type := {
  (** The module constant set by the guarded import. *)
  IMAGE_PROCESSING_AVAILABLE : bool;
  (** [cv2.imread(path)] on a string: [None] when the file cannot be read. *)
  cv2_imread : string -> option image;
  (** [cv2.imread(path, cv2.IMREAD_GRAYSCALE)]. *)
  cv2_imread_grayscale : string -> option gray_image;
  (** [cv2.resize(image, (w, h))]. *)
  cv2_resize : gray_image -> nat * nat -> gray_image;
  (** The singular values of [np.linalg.svd(m, full_matrices=False)]. *)
  svd_values : list (list R) -> exc (list R)
}.

Module Img.

(** [np.sum], [np.mean] and [np.std] over all entries. *)
Definition np_sum (xs : list R) : R := fold_right Rplus 0 xs.
Definition np_mean (xs : list R) : R := np_sum xs / INR (List.length xs).
Definition np_std (xs : list R) : R :=
sqrt (np_mean (map (fun x => (x - np_mean xs) * (x - np_mean xs)) xs)).

(** [cv2.imread] called with the Python argument: [None] is not a path. *)
Definition imread {L : ImageLib} (image_path : option string) : exc (option image) :=
match image_path with
| Some p => Ok (cv2_imread p)
| None => Raise TypeError
end.

Definition imread_grayscale {L : ImageLib} (image_path : option string)
  : exc (option gray_image) :=
match image_path with
| Some p => Ok (cv2_imread_grayscale p)
| None => Raise TypeError
end.

(** [cv2.cvtColor(image, cv2.COLOR_BGR2RGB)]: the channels in the order
    red, green, blue. *)
Definition cvtColor_BGR2RGB (img : image) : list (list (Z * Z * Z)) :=
map (map (fun p => (red p, green p, blue p))) img.

(** [image_rgb[:, :, c].astype(float)], flattened by rows. *)
Definition channel (c : Z * Z * Z -> Z) (image_rgb : list (list (Z * Z * Z))) : list R :=
map (fun p => IZR (c p)) (List.concat image_rgb).

(** Entrywise array arithmetic on arrays of one shape. *)
Fixpoint zip_with (f : R -> R -> R) (xs ys : list R) : list R :=
match xs, ys with
| x :: xs', y :: ys' => f x y :: zip_with f xs' ys'
| _, _ => []
end.

Definition scale (k : R) (xs : list R) : list R := map (Rmult k) xs.

(** The formula of line 225. *)
Definition colorfulness_of (rg yb : list R) : R :=
let std_rg := np_std rg in
let std_yb := np_std yb in
let mean_rg := np_mean rg in
let mean_yb := np_mean yb in
sqrt (std_rg ^ 2 + std_yb ^ 2) + 0.3 * sqrt (mean_rg ^ 2 + mean_yb ^ 2).

Definition calculate_colorfulness {L : ImageLib} (image_path : option string) : exc R :=
if negb IMAGE_PROCESSING_AVAILABLE then Ok 0
else
  try_except
    (img <- imread image_path ;;
     match img with
     | None => Ok 0
     | Some image =>
         let image_rgb := cvtColor_BGR2RGB image in
         let R_ := channel (fun p => fst (fst p)) image_rgb in
         let G_ := channel (fun p => snd (fst p)) image_rgb in
         let B_ := channel snd image_rgb in
         let rg := zip_with Rminus R_ G_ in
         let yb := zip_with Rminus (scale 0.5 (zip_with Rplus R_ G_)) B_ in
         Ok (colorfulness_of rg yb)
     end)
    (fun e => Ok 0).

(** Lines 249-251: the entropy of a singular value spectrum. *)
Definition spectrum_entropy (s : list R) : R :=
let s_normalized := map (fun x => x / np_sum s) s in
let s_normalized :=
  filter (fun p => if Rlt_dec 1e-10 p then true else false) s_normalized in
- np_sum (map (fun p => p * Py.log2 p) s_normalized).

Definition astype_float (m : gray_image) : list (list R) := map (map IZR) m.

Definition calculate_svd_entropy {L : ImageLib} (image_path : option string) : exc R :=
if negb IMAGE_PROCESSING_AVAILABLE then Ok 0
else
  try_except
    (img <- imread_grayscale image_path ;;
     match img with
     | None => Ok 0
     | Some image =>
         let image := cv2_resize image (64%nat, 64%nat) in
         s <- svd_values (astype_float image) ;;
         Ok (spectrum_entropy s)
     end)
    (fun e => Ok 0).

End Img.

(** ** The server as a transition system *)

Module Server.






End Server.

(** ** The specification's wording, for comparison with the code *)

Module Spec.

(** Section 4.4: [rescale(raw_log_price, artist)]. *)
Definition tier_price (base_price : R) (freq : Z) (median_price : R) : R :=
if (freq >=? 100)%Z then Rmax (base_price * 20) (median_price * 0.10)
else if (freq >=? 50)%Z then Rmax (base_price * 15) (median_price * 0.05)
else if (freq >=? 20)%Z then Rmax (base_price * 10) (median_price * 0.02)
else Rmax (base_price * 3) 10.

Definition clamp (lo hi x : R) : R := Rmin (Rmax x lo) hi.

Definition rescale (raw_log_price : R) (artist : ArtistData) : R :=
let base_price := exp raw_log_price - 1 in
clamp 10 1000000 (tier_price base_price (frequency artist) (median_price artist)).

(** Section 4.1: the key of an artist record, lower-cased and trimmed. *)
Definition normalize (name : string) : string := PyStr.strip (PyStr.lower name).





End Spec.

(** ** Example data *)

Module Ex.

Definition db : DatabaseManager := DB.new "data/artist_database.db".

(** A request as the repository's system test sends it. *)
Definition picasso : ArtworkInput :=
mkArtworkInput "Pablo Picasso" "painting" "oil on canvas" "hand signed"
  "excellent" "unique" 1907 100 80 false true true false "Unknown"
  None None (Some "Untitled") None.

(** The same request with a zero width and a year before 1200. *)
Definition zero_width : ArtworkInput :=
mkArtworkInput "Pablo Picasso" "painting" "oil on canvas" "hand signed"
  "excellent" "unique" 1000 0 80 false true true false "Unknown"
  None None (Some "Untitled") None.

(** A request that carries image scores and was created this year. *)
Definition with_scores : ArtworkInput :=
mkArtworkInput "Jane Doe" "print" "etching" "unsigned"
  "good" "limited" 2024 30 40 true false false false "Unknown"
  (Some 42.5) (Some 3.25) (Some "Blue Study") None.

(** A schema with one computed categorical name, one name the builder does not
    compute at a categorical position, two computed numeric names and one
    numeric name the builder does not compute. *)
Definition schema : FeatureInfo :=
mkFeatureInfo
  (Some ["ARTIST"; "MATERIAL"; "width"; "colorfulness_score"; "lot_number"])
  (Some [0%nat; 1%nat]) (Some 5%Z) [].

(** A regressor that answers [0] for every frame. *)
Definition constant_model : Model := fun _ => Ok 0.

Definition state : AppState :=
mkAppState (Some constant_model) true (Some schema) (Some db).

(** The state before [load_model] succeeded. *)
Definition not_loaded : AppState :=
mkAppState None false None (Some db).

(** Stand-ins for the runtime, used to evaluate examples. *)
Definition externals : Externals :=
{| str_of_float := fun _ => "0.0";
   parse_number := fun _ => None;
   py_round := fun x _ => x |}.

(** A library with one readable file holding a single orange pixel. *)
Definition image_lib : ImageLib :=
{| IMAGE_PROCESSING_AVAILABLE := true;
   cv2_imread := fun p =>
     if String.eqb p "orange.png" then Some [[mkBGR 0 128 255]] else None;
   cv2_imread_grayscale := fun p =>
     if String.eqb p "orange.png" then Some [[150%Z]] else None;
   cv2_resize := fun g _ => g;
   svd_values := fun m => Ok [3; 1] |}.

End Ex.

(** ** Start-up: [init_database], [load_model] and [lifespan] *)

(** The regressor object [joblib.load] returns: its scoring function and the
    two attributes [load_model] probes with [hasattr]. *)
Record ModelObject : Type := mkModelObject {
  mo_predict : Model;
  mo_feature_names_ : option (list string);
  mo_cat_feature_indices : option (list nat)
}.

(** The files [load_model] and [init_database] read. For each file: [None]
    when it does not exist, [Some (Raise e)] when reading it fails. *)
Record Artifacts : Type := mkArtifacts {
  model_file : option (exc ModelObject);
  feature_info_file : option (exc FeatureInfo);
  database_file : exc (list ArtistRow * list TechArtistRow)
}.

Module Startup.

Definition set_model (m : option Model) (st : AppState) : AppState :=
mkAppState m (model_loaded st) (feature_info st) (db_manager st).

Definition set_model_loaded (b : bool) (st : AppState) : AppState :=
mkAppState (model st) b (feature_info st) (db_manager st).

Definition set_feature_info (fi : option FeatureInfo) (st : AppState) : AppState :=
mkAppState (model st) (model_loaded st) fi (db_manager st).

Definition set_db_manager (db : option DatabaseManager) (st : AppState) : AppState :=
mkAppState (model st) (model_loaded st) (feature_info st) db.

(** [AppState()]: the state the module starts with. *)
Definition initial : AppState := mkAppState None false None None.

(** The dictionary [load_model] builds when [feature_info.json] is absent. *)
Definition model_defaults (obj : ModelObject) : FeatureInfo :=
mkFeatureInfo
  (Some (match mo_feature_names_ obj with Some names => names | None => [] end))
  (Some (match mo_cat_feature_indices obj with Some ci => ci | None => [] end))
  (Some (match mo_feature_names_ obj with
         | Some names => Z.of_nat (List.length names)
         | None => 0%Z
         end))
  [].

(** [app_state.feature_info['n_features']], read for a log line. *)
Definition log_n_features (st : AppState) : exc Z :=
match feature_info st with
| Some fi =>
    match n_features fi with
    | Some n => Ok n
    | None => Raise (KeyError "n_features")
    end
| None => Raise TypeError
end.

(** The [try] block of [load_model]: the value it returns or the exception it
    raises, with the state at that point. *)
Definition load_model_try (env : Artifacts) (st : AppState) : exc bool * AppState :=
match model_file env with
| None => (Ok false, set_model_loaded false st)
| Some (Raise e) => (Raise e, st)
| Some (Ok obj) =>
    let st := set_model (Some (mo_predict obj)) st in
    let after_info : exc unit * AppState :=
      match feature_info_file env with
      | Some (Raise e) => (Raise e, st)
      | Some (Ok fi) =>
          let st := set_feature_info (Some fi) st in
          (_ <- log_n_features st ;; Ok tt, st)
      | None => (Ok tt, set_feature_info (Some (model_defaults obj)) st)
      end in
    match after_info with
    | (Raise e, st) => (Raise e, st)
    | (Ok _, st) =>
        let st := set_model_loaded true st in
        (_ <- log_n_features st ;; Ok true, st)
    end
end.

(** [load_model()]: the returned flag and the state afterwards. *)
Definition load_model (env : Artifacts) (st : AppState) : bool * AppState :=
match load_model_try env st with
| (Ok b, st) => (b, st)
| (Raise _, st) => (false, set_model_loaded false st)
end.

(** The module-level [init_database()]. *)
Definition init_database (env : Artifacts) (st : AppState) : bool * AppState :=
match database_file env with
| Ok (a, t) =>
    (true,
     set_db_manager
       (Some (DB.init_database (mkDatabaseManager "data/artist_database.db" a t)))
       st)
| Raise _ => (false, st)
end.

(** The start-up half of [lifespan]. *)
Definition lifespan (env : Artifacts) (st : AppState) : AppState :=
snd (load_model env (snd (init_database env st))).

End Startup.

(** ** [GET /model/info] *)

(** A JSON value of a nested response body. *)
#[local] Set Warnings "-register-all".
Inductive jvalue : Type :=
| JVStr (s : string)
| JVInt (z : Z)
| JVFloat (r : R)
| JVList (l : list jvalue)
| JVObj (fields : list (string * jvalue)).

Module ModelInfo.

Definition schema_key {A : Type} (st : AppState) (key : string)
  (field : FeatureInfo -> option A) (default : A) : exc A :=
match truthy_feature_info st with
| Some fi =>
    match field fi with
    | Some a => Ok a
    | None => Raise (KeyError key)
    end
| None => Ok default
end.

(** [r2_score] is the value of the key of that name in the schema file, when
    the file has it. *)
Definition get_model_info (r2_score : option R) (st : AppState)
  : exc (list (string * jvalue)) :=
if negb (model_loaded st) then Raise (HTTPException 503)
else
  n <- Facade.features_count st ;;
  ci <- schema_key st "categorical_indices" categorical_indices [] ;;
  names <- schema_key st "feature_names" feature_names [] ;;
  Ok [ ("model_type", JVStr "CatBoost Regressor");
       ("version", JVStr "8.0.0");
       ("features_count", JVInt n);
       ("categorical_features", JVList (map (fun i => JVInt (Z.of_nat i)) ci));
       ("feature_names", JVList (map JVStr (firstn 10 names)));
       ("performance",
          JVObj [ ("r2_score",
                     JVFloat (match truthy_feature_info st, r2_score with
                              | Some _, Some r => r
                              | _, _ => 0.8449
                              end));
                  ("mae", JVFloat 0.264);
                  ("rmse", JVFloat 0.535);
                  ("accuracy_within_20_percent", JVFloat 0.695) ]);
       ("training_info",
          JVObj [ ("algorithm", JVStr "CatBoost");
                  ("ensemble_method", JVStr "Gradient Boosting");
                  ("categorical_features_handling", JVStr "Automatic");
                  ("missing_values_handling", JVStr "Automatic") ]) ].

End ModelInfo.

(** ** The schema file written by [fix_model_saving] *)

Module Saving.

(** [[i for i, col in enumerate(columns) if col in categorical_cols]], with
    the enumeration starting at [i]. *)
Fixpoint enumerate_in (i : nat) (columns categorical_cols : list string) : list nat :=
match columns with
| [] => []
| col :: rest =>
    if existsb (String.eqb col) categorical_cols
    then i :: enumerate_in (S i) rest categorical_cols
    else enumerate_in (S i) rest categorical_cols
end.

(** The dictionary [feature_info] of [fix_model_saving]. *)
Definition feature_info_of (best_model_name : string)
  (X_train_cb X_train_sk categorical_cols : list string) : FeatureInfo :=
let feature_names :=
  if String.eqb best_model_name "catboost" then X_train_cb else X_train_sk in
let categorical_indices :=
  if String.eqb best_model_name "catboost"
  then enumerate_in 0 X_train_cb categorical_cols
  else [] in
mkFeatureInfo (Some feature_names) (Some categorical_indices)
  (Some (Z.of_nat (List.length feature_names)))
  [ "model_type"; "target_transformation"; "inverse_transformation";
    "r2_score"; "categorical_columns" ].

End Saving.

(** ** The form of [frontend/app.py] *)

Module Frontend.

(** [validate_form_inputs]: whether the form is valid, and the messages. The
    division of the aspect test is Python's. *)
Definition validate_form_inputs (artist : string) (year : option Z)
  (width height : option R) (colorfulness_score svd_entropy : R)
  : exc (bool * list string) :=
let stripped := PyStr.strip artist in
let e_artist :=
  if negb (PyStr.truthy artist) || negb (PyStr.truthy stripped)
  then ["Artist name is required"]
  else if (String.length stripped <? 2)%nat
  then ["Artist name must be at least 2 characters"]
  else if (100 <? String.length stripped)%nat
  then ["Artist name must be less than 100 characters"]
  else [] in
let e_year :=
  match year with
  | None => ["Year is required"]
  | Some y =>
      if ((y <? 1200) || (2024 <? y))%Z
      then ["Year must be between 1200 and 2024"] else []
  end in
let e_width :=
  match width with
  | None => ["Width is required and must be greater than 0"]
  | Some w =>
      if ArtworkInputModel.Rleb w 0
      then ["Width is required and must be greater than 0"]
      else if ArtworkInputModel.Rltb 500 w
      then ["Width must be between 0.1 and 500 cm"] else []
  end in
let e_height :=
  match height with
  | None => ["Height is required and must be greater than 0"]
  | Some h =>
      if ArtworkInputModel.Rleb h 0
      then ["Height is required and must be greater than 0"]
      else if ArtworkInputModel.Rltb 500 h
      then ["Height must be between 0.1 and 500 cm"] else []
  end in
unrealistic <-
  match width, height with
  | Some w, Some h =>
      if Req_dec_T w 0 then Ok false
      else if Req_dec_T h 0 then Ok false
      else
        a <- Py.truediv w h ;;
        if ArtworkInputModel.Rltb 10 a then Ok true
        else b <- Py.truediv h w ;; Ok (ArtworkInputModel.Rltb 10 b)
  | _, _ => Ok false
  end ;;
let e_ratio :=
  if unrealistic then ["Aspect ratio seems unrealistic (max 10:1)"] else [] in
let e_color :=
  if ArtworkInputModel.Rltb colorfulness_score 0
     || ArtworkInputModel.Rltb 1000 colorfulness_score
  then ["Colorfulness score must be between 0 and 1000"] else [] in
let e_entropy :=
  if ArtworkInputModel.Rltb svd_entropy 0 || ArtworkInputModel.Rltb 1000 svd_entropy
  then ["SVD entropy must be between 0 and 1000"] else [] in
let errors :=
  (e_artist ++ e_year ++ e_width ++ e_height ++ e_ratio ++ e_color ++ e_entropy)%list in
Ok ((Z.of_nat (List.length errors) =? 0)%Z, errors).

(** [calculate_title_word_count] *)
Definition calculate_title_word_count (title : string) : Z :=
if negb (PyStr.truthy title)
   || String.eqb (PyStr.lower (PyStr.strip title)) "untitled"
then 3%Z
else PyStr.split_len (PyStr.strip title).

(** [x or default] on strings. *)
Definition str_or (x default : string) : string :=
if PyStr.truthy x then x else default.

(** The request body [predict_page] builds from the submitted form and the
    image scores of the session. *)
Definition payload (artist object_type technique signature condition
  edition_type : string) (year : option Z) (width height : option R)
  (has_edition has_certificate has_frame has_damage : bool)
  (expert title : string) (session_colorfulness session_entropy : option R)
  : ArtworkInput :=
let title_wc := calculate_title_word_count (str_or title "Untitled") in
mkArtworkInput
  (if PyStr.truthy artist then PyStr.strip artist else "")
  object_type technique signature condition edition_type
  (match year with
   | Some y => if (y =? 0)%Z then 1950%Z else y
   | None => 1950%Z
   end)
  (match width with
   | Some w => if Req_dec_T w 0 then 50 else w
   | None => 50
   end)
  (match height with
   | Some h => if Req_dec_T h 0 then 60 else h
   | None => 60
   end)
  has_edition has_certificate has_frame has_damage
  (if PyStr.truthy expert then PyStr.strip expert else "Unknown")
  (Some (Py.or_zero session_colorfulness))
  (Some (Py.or_zero session_entropy))
  (Some (if PyStr.truthy title then PyStr.strip title else "Untitled"))
  (Some title_wc).


(** The helper [clamp] of [results_page]. *)
Definition clamp (x lo_ hi_ : R) : R := Py.max lo_ (Py.min hi_ x).


End Frontend.

(** * Properties *)

(** ** Arithmetic of the builtins *)

Lemma py_max_Rmax (a b : R) : Py.max a b = Rmax a b.
Proof.
  unfold Py.max, Rmax.
  destruct (Rlt_dec a b), (Rle_dec a b); lra.
Qed.

Lemma py_min_Rmin (a b : R) : Py.min a b = Rmin a b.
Proof.
  unfold Py.min, Rmin.
  destruct (Rlt_dec b a), (Rle_dec a b); lra.
Qed.

Lemma Zgeb_leb (a b : Z) : (a >=? b)%Z = (b <=? a)%Z.
Proof. apply Z.geb_leb. Qed.

Ltac split_max_min :=
  rewrite ?py_max_Rmax, ?py_min_Rmin;
  unfold Rmax, Rmin;
  repeat match goal with
         | |- context [Rle_dec ?a ?b] => destruct (Rle_dec a b)
         | H : context [Rle_dec ?a ?b] |- _ => destruct (Rle_dec a b)
         end;
  try lra.

Lemma price_range_bounds (p : R) : 10 <= Facade.price_range p <= 1000000.
Proof. unfold Facade.price_range. split; split_max_min. Qed.

Lemma artist_scaling_tier (base_price : R) (freq : Z) (median_price : R) :
  Facade.artist_scaling base_price freq median_price
  = Spec.tier_price base_price freq median_price.
Proof.
  unfold Facade.artist_scaling, Spec.tier_price.
  rewrite !Zgeb_leb, !py_max_Rmax.
  replace (median_price * 0.10) with (median_price * 0.1) by lra.
  reflexivity.
Qed.

(** ** Reference store *)

Lemma get_artist_data_lower (db : DatabaseManager) (n1 n2 : string) :
  PyStr.lower n1 = PyStr.lower n2 ->
  DB.get_artist_data db n1 = DB.get_artist_data db n2.
Proof. unfold DB.get_artist_data. intros ->. reflexivity. Qed.

Lemma get_artist_data_absent (db : DatabaseManager) (name : string) :
  DB.select_artist db (PyStr.lower name) = None ->
  DB.get_artist_data db name = mkArtistData 1 500 250.
Proof. unfold DB.get_artist_data. intros ->. reflexivity. Qed.

Lemma seeded_picasso :
  DB.get_artist_data Ex.db "Pablo Picasso" = mkArtistData 150 50000 25000.
Proof. reflexivity. Qed.

(** C4. The lookup of [get_artist_data] lower-cases the name and does not trim
    it, whereas the builder normalizes the same field with
    [lower().strip()]: on the seeded store "Pablo Picasso" and "PABLO PICASSO"
    give the stored record (frequency 150), while " Pablo Picasso", which
    differs from them only by a leading space, gives the default record
    (frequency 1, median price 500, spread 250). *)
Theorem get_artist_data_not_trimmed :
  Spec.normalize " Pablo Picasso" = Spec.normalize "Pablo Picasso"
  /\ DB.get_artist_data Ex.db "Pablo Picasso" = mkArtistData 150 50000 25000
  /\ DB.get_artist_data Ex.db "PABLO PICASSO" = mkArtistData 150 50000 25000
  /\ DB.get_artist_data Ex.db " Pablo Picasso" = mkArtistData 1 500 250
  /\ DB.get_artist_data Ex.db " Pablo Picasso"
     <> DB.get_artist_data Ex.db "Pablo Picasso".
Proof.
  repeat split; try reflexivity.
  intro H. apply (f_equal frequency) in H. discriminate H.
Qed.

(** ** Price Rescaler *)

(** C1. The price computed for a raw model output is the specification's
    [rescale]: [expm1] of the raw output, one tier chosen by frequency with the
    highest threshold first, then the clamp; it lies in [10, 1000000]; and a
    base price of 100 for an artist of frequency 150 and median price 50000
    gives 5000. *)
Theorem final_price_rescale (raw_log_price : R) (artist_data : ArtistData) :
  Facade.final_price raw_log_price artist_data
  = Spec.rescale raw_log_price artist_data
  /\ 10 <= Facade.final_price raw_log_price artist_data <= 1000000
  /\ Facade.price_range (Facade.artist_scaling 100 150 50000) = 5000
  /\ Py.expm1 (ln 101) = 100
  /\ Facade.final_price (ln 101) (DB.get_artist_data Ex.db "Pablo Picasso") = 5000.
Proof.
  assert (Hbase : Py.expm1 (ln 101) = 100).
  { unfold Py.expm1. rewrite exp_ln by lra. lra. }
  assert (Hscen : Facade.price_range (Facade.artist_scaling 100 150 50000) = 5000).
  { unfold Facade.price_range, Facade.artist_scaling. simpl. split_max_min. }
  repeat split.
  - unfold Facade.final_price, Spec.rescale, Spec.clamp, Facade.price_range.
    rewrite artist_scaling_tier, py_max_Rmax, py_min_Rmin. reflexivity.
  - apply price_range_bounds.
  - apply price_range_bounds.
  - exact Hscen.
  - exact Hbase.
  - rewrite seeded_picasso. unfold Facade.final_price. rewrite Hbase.
    exact Hscen.
Qed.

(** C7. At equal non-negative base price and median price, the formula of the
    tier for frequencies of at least 100 is at least the formula of the tier
    for frequencies from 50 to 99. *)
Theorem tier_100_dominates_tier_50 (b m : R) (f100 f50 : Z) :
  0 <= b -> 0 <= m -> (100 <= f100)%Z -> (50 <= f50 < 100)%Z ->
  Py.max (b * 20) (m * 0.10) >= Py.max (b * 15) (m * 0.05)
  /\ Facade.artist_scaling b f100 m = Py.max (b * 20) (m * 0.10)
  /\ Facade.artist_scaling b f50 m = Py.max (b * 15) (m * 0.05).
Proof.
  intros Hb Hm H100 H50.
  split; [ split_max_min | ].
  unfold Facade.artist_scaling.
  replace (100 <=? f100)%Z with true by (symmetry; apply Z.leb_le; lia).
  replace (100 <=? f50)%Z with false by (symmetry; apply Z.leb_gt; lia).
  replace (50 <=? f50)%Z with true by (symmetry; apply Z.leb_le; lia).
  split; f_equal; lra.
Qed.

Lemma tier_100_dominates_tier_50_witness :
  Py.max (100 * 20) (50000 * 0.10) >= Py.max (100 * 15) (50000 * 0.05)
  /\ Facade.artist_scaling 100 150 50000 = Py.max (100 * 20) (50000 * 0.10)
  /\ Facade.artist_scaling 100 80 50000 = Py.max (100 * 15) (50000 * 0.05).
Proof.
  apply (tier_100_dominates_tier_50 100 50000 150 80); [ lra | lra | lia | lia ].
Defined.

(** ** Health *)




(** ** Validation *)

Lemma validate_accepts_all (a : ArtworkInput) : ArtworkInputModel.validate a = true.
Proof. reflexivity. Qed.

(** ** Age features *)

Lemma compute_features_inv (db : DatabaseManager) (input_data : ArtworkInput)
  (image_features : option dict) (features : dict) :
  Features.compute_features db input_data image_features = Ok features ->
  exists img ar apw aph rar,
    features = Features.features_dict db input_data img ar apw aph rar.
Proof.
  unfold Features.compute_features, bind. intros H.
  destruct (Features.image_cells _ _) as [img|]; [ | discriminate ].
  destruct (Py.truediv _ _) as [ar|]; [ | discriminate ].
  destruct (Py.truediv _ _) as [apw|]; [ | discriminate ].
  destruct (Py.truediv _ _) as [aph|]; [ | discriminate ].
  destruct (Py.truediv _ _) as [rar|]; [ | discriminate ].
  injection H as <-. eauto 6.
Qed.

Lemma truediv_ok (x y : R) : y <> 0 -> Py.truediv x y = Ok (x / y).
Proof. intros Hy. unfold Py.truediv. destruct (Req_dec_T y 0); tauto. Qed.

(** The groups compute without an exception when the image cells can be
    read, neither dimension is [-1e-8] and the artist's frequency is not
    [-1]. *)
Lemma compute_features_total (db : DatabaseManager) (input_data : ArtworkInput)
  (image_features : option dict) :
  is_ok (Features.image_cells input_data image_features) = true ->
  height input_data + 1e-8 <> 0 ->
  width input_data + 1e-8 <> 0 ->
  frequency (DB.get_artist_data db (artist input_data)) <> (-1)%Z ->
  exists features,
    Features.compute_features db input_data image_features = Ok features.
Proof.
  intros Hi Hh Hw Hf. unfold Features.compute_features.
  destruct (Features.image_cells input_data image_features) as [img|];
    [ | discriminate ].
  unfold bind at 1.
  rewrite (truediv_ok _ _ Hh). unfold bind at 1.
  rewrite (truediv_ok _ _ Hw). unfold bind at 1.
  rewrite (truediv_ok _ _ Hh). unfold bind at 1.
  rewrite truediv_ok.
  - eexists. reflexivity.
  - intro H0. apply Hf. apply eq_IZR in H0. lia.
Qed.

Lemma age_flags_exclusive (a : Z) :
  (Features.is_antique a + Features.is_vintage a + Features.is_modern a = 1)%Z
  /\ (Features.is_antique a = 1%Z <-> (100 <= a)%Z)
  /\ (Features.is_vintage a = 1%Z <-> (20 <= a < 100)%Z)
  /\ (Features.is_modern a = 1%Z <-> (a < 20)%Z).
Proof.
  unfold Features.is_antique, Features.is_vintage, Features.is_modern, Py.flag.
  destruct (Z.leb_spec 100 a), (Z.leb_spec 20 a), (Z.ltb_spec a 100),
    (Z.ltb_spec a 20); simpl; repeat split; intros; try lia; try discriminate.
Qed.

(** C8. In the dictionary the builder computes, [log_age] is
    [log1p(max(0, age))] for [age = 2024 - year], and [is_antique],
    [is_vintage], [is_modern] are the flags of [age >= 100], [20 <= age < 100]
    and [age < 20], of which exactly one is 1; a year of 2024 gives age 0,
    [is_modern = 1], [is_antique = 0], [is_vintage = 0] and [log_age = 0]. *)
Theorem age_features (db : DatabaseManager) (input_data : ArtworkInput)
  (image_features : option dict) (features : dict) :
  Features.compute_features db input_data image_features = Ok features ->
  let age := (2024 - year input_data)%Z in
  Dict.get "log_age" features = Some (VFloat (Py.log1p (IZR (Z.max 0 age))))
  /\ Dict.get "is_antique" features = Some (VInt (if (100 <=? age)%Z then 1 else 0))
  /\ Dict.get "is_vintage" features
     = Some (VInt (if ((20 <=? age) && (age <? 100))%Z then 1 else 0))
  /\ Dict.get "is_modern" features = Some (VInt (if (age <? 20)%Z then 1 else 0))
  /\ ((if (100 <=? age)%Z then 1 else 0)
      + (if ((20 <=? age) && (age <? 100))%Z then 1 else 0)
      + (if (age <? 20)%Z then 1 else 0) = 1)%Z
  /\ (year input_data = 2024%Z ->
      age = 0%Z
      /\ Dict.get "is_modern" features = Some (VInt 1)
      /\ Dict.get "is_antique" features = Some (VInt 0)
      /\ Dict.get "is_vintage" features = Some (VInt 0)
      /\ Dict.get "log_age" features = Some (VFloat 0)).
Proof.
  intros H age.
  destruct (compute_features_inv _ _ _ _ H) as (img & ar & apw & aph & rar & ->).
  repeat split; try reflexivity.
  - apply (age_flags_exclusive age).
  - subst age. lia.
  - change (Dict.get "is_modern" _)
      with (Some (VInt (Features.is_modern (Features.age input_data)))).
    unfold Features.age. rewrite H0. reflexivity.
  - change (Dict.get "is_antique" _)
      with (Some (VInt (Features.is_antique (Features.age input_data)))).
    unfold Features.age. rewrite H0. reflexivity.
  - change (Dict.get "is_vintage" _)
      with (Some (VInt (Features.is_vintage (Features.age input_data)))).
    unfold Features.age. rewrite H0. reflexivity.
  - change (Dict.get "log_age" _)
      with (Some (VFloat (Features.log_age (Features.age input_data)))).
    unfold Features.age, Features.log_age, Py.log1p. rewrite H0. simpl.
    rewrite Rplus_0_r. rewrite ln_1. reflexivity.
Qed.

Lemma age_features_witness :
  exists features,
    Features.compute_features Ex.db Ex.with_scores None = Ok features
    /\ Dict.get "is_modern" features = Some (VInt 1)
    /\ Dict.get "is_antique" features = Some (VInt 0)
    /\ Dict.get "is_vintage" features = Some (VInt 0)
    /\ Dict.get "log_age" features = Some (VFloat 0).
Proof.
  destruct (compute_features_total Ex.db Ex.with_scores None) as [features Hf].
  - reflexivity.
  - simpl. lra.
  - simpl. lra.
  - simpl. lia.
  - exists features. split; [ exact Hf | ].
    apply (age_features Ex.db Ex.with_scores None features Hf). reflexivity.
Defined.

(** ** Image Feature Extractor *)

(** C5. Both extractors always return a number, never an exception; they
    return 0.0 for a missing path, for a file that cannot be read and when the
    image libraries are not installed. *)
Theorem extractors_absorb_failures (L : ImageLib) (image_path : option string) :
  (exists c, Img.calculate_colorfulness image_path = Ok c)
  /\ (exists e, Img.calculate_svd_entropy image_path = Ok e)
  /\ Img.calculate_colorfulness None = Ok 0
  /\ Img.calculate_svd_entropy None = Ok 0
  /\ (forall p, cv2_imread p = None -> Img.calculate_colorfulness (Some p) = Ok 0)
  /\ (forall p, cv2_imread_grayscale p = None ->
                Img.calculate_svd_entropy (Some p) = Ok 0)
  /\ (IMAGE_PROCESSING_AVAILABLE = false ->
      Img.calculate_colorfulness image_path = Ok 0
      /\ Img.calculate_svd_entropy image_path = Ok 0).
Proof.
  unfold Img.calculate_colorfulness, Img.calculate_svd_entropy.
  destruct IMAGE_PROCESSING_AVAILABLE; simpl.
  - repeat split.
    + destruct image_path as [p|]; simpl; [ | eauto ].
      destruct (cv2_imread p); simpl; eauto.
    + destruct image_path as [p|]; simpl; [ | eauto ].
      destruct (cv2_imread_grayscale p); simpl; [ | eauto ].
      destruct (svd_values _); simpl; eauto.
    + intros p ->. reflexivity.
    + intros p ->. reflexivity.
    + discriminate.
    + discriminate.
  - repeat split; eauto.
Qed.

Lemma extractors_absorb_failures_witness :
  @Img.calculate_colorfulness Ex.image_lib (Some "missing.png") = Ok 0
  /\ @Img.calculate_svd_entropy Ex.image_lib (Some "missing.png") = Ok 0
  /\ @Img.calculate_colorfulness Ex.image_lib None = Ok 0
  /\ @Img.calculate_svd_entropy Ex.image_lib None = Ok 0.
Proof.
  destruct (extractors_absorb_failures Ex.image_lib None)
    as (_ & _ & Hc & He & Hcu & Heu & _).
  split; [ | split; [ | split ] ].
  - apply Hcu. reflexivity.
  - apply Heu. reflexivity.
  - exact Hc.
  - exact He.
Defined.














(** ** Dictionaries and frames *)

Section DictFacts.

Implicit Types (d df : dict) (k name col : string) (v : value).

Lemma get_set d k v name :
  Dict.get name (Dict.set k v d)
  = if String.eqb k name then Some v else Dict.get name d.
Proof.
  induction d as [|[k' v'] d IH]; simpl.
  - reflexivity.
  - destruct (String.eqb_spec k' k) as [-> | Hk]; simpl.
    + destruct (String.eqb k name); reflexivity.
    + rewrite IH. destruct (String.eqb_spec k' name) as [-> | Hn].
      * destruct (String.eqb_spec k name); [ congruence | reflexivity ].
      * reflexivity.
Qed.

Lemma get_None_notin d k : ~ In k (Dict.keys d) -> Dict.get k d = None.
Proof.
  induction d as [|[k' v'] d IH]; simpl; [ reflexivity | ].
  intros H. destruct (String.eqb_spec k' k); [ tauto | apply IH; tauto ].
Qed.

Lemma get_Some_in d k : In k (Dict.keys d) -> exists v, Dict.get k d = Some v.
Proof.
  induction d as [|[k' v'] d IH]; simpl; [ tauto | ].
  intros [-> | H].
  - rewrite String.eqb_refl. eauto.
  - destruct (String.eqb k' k); eauto.
Qed.

Lemma keys_set_new d k v :
  ~ In k (Dict.keys d) -> Dict.keys (Dict.set k v d) = (Dict.keys d ++ [k])%list.
Proof.
  induction d as [|[k' v'] d IH]; simpl; [ reflexivity | ].
  intros H. destruct (String.eqb_spec k' k); [ tauto | ].
  simpl. rewrite IH; tauto.
Qed.

Lemma keys_map_column col f df :
  Dict.keys (Features.map_column col f df) = Dict.keys df.
Proof.
  induction df as [|[k v] df IH]; simpl; [ reflexivity | ].
  destruct (String.eqb k col); simpl; [ reflexivity | now rewrite IH ].
Qed.

Lemma get_map_column col f df name :
  Dict.get name (Features.map_column col f df)
  = if String.eqb col name then option_map f (Dict.get name df)
    else Dict.get name df.
Proof.
  induction df as [|[k v] df IH]; simpl.
  - destruct (String.eqb col name); reflexivity.
  - destruct (String.eqb_spec k col) as [-> | Hk]; simpl.
    + destruct (String.eqb col name); reflexivity.
    + rewrite IH. destruct (String.eqb_spec k name) as [-> | Hn].
      * destruct (String.eqb_spec col name); [ congruence | reflexivity ].
      * reflexivity.
Qed.

End DictFacts.

(** ** Re-projection onto the declared schema *)

Section Alignment.

Variable features : dict.

Let step (ordered : dict) (feature_name : string) : dict :=
  Dict.set feature_name (Features.cell_or_default features feature_name) ordered.

Lemma ordered_features_fold (expected : list string) :
  Features.ordered_features expected features = fold_left step expected [].
Proof. reflexivity. Qed.

Lemma fold_step_keys (l : list string) : forall acc,
  NoDup (Dict.keys acc ++ l)%list ->
  Dict.keys (fold_left step l acc) = (Dict.keys acc ++ l)%list.
Proof.
  induction l as [|name l IH]; intros acc Hnd; simpl.
  - now rewrite app_nil_r.
  - assert (Hnotin : ~ In name (Dict.keys acc)).
    { apply NoDup_remove_2 in Hnd. rewrite in_app_iff in Hnd. tauto. }
    assert (Hk : Dict.keys (step acc name) = (Dict.keys acc ++ [name])%list).
    { unfold step. now apply keys_set_new. }
    rewrite IH; rewrite Hk, <- app_assoc; [ reflexivity | exact Hnd ].
Qed.

Lemma fold_step_get (l : list string) : forall acc name,
  Dict.get name (fold_left step l acc)
  = if existsb (String.eqb name) l
    then Some (Features.cell_or_default features name)
    else Dict.get name acc.
Proof.
  induction l as [|k l IH]; intros acc name; simpl; [ reflexivity | ].
  rewrite IH. unfold step. rewrite get_set.
  destruct (existsb (String.eqb name) l); simpl.
  - now rewrite orb_true_r.
  - rewrite orb_false_r, (String.eqb_sym name k).
    destruct (String.eqb_spec k name) as [-> | _]; reflexivity.
Qed.

Lemma ordered_features_keys (expected : list string) :
  NoDup expected ->
  Dict.keys (Features.ordered_features expected features) = expected.
Proof. intros H. rewrite ordered_features_fold, fold_step_keys; auto. Qed.

Lemma ordered_features_get (expected : list string) (name : string) :
  In name expected ->
  Dict.get name (Features.ordered_features expected features)
  = Some (Features.cell_or_default features name).
Proof.
  intros Hin. rewrite ordered_features_fold, fold_step_get.
  replace (existsb (String.eqb name) expected) with true; [ reflexivity | ].
  symmetry. apply existsb_exists. exists name. split; [ exact Hin | ].
  apply String.eqb_refl.
Qed.

End Alignment.

(** ** The two coercion loops *)

Section Coercion.

Context {E : Externals}.

Lemma astype_str_idem (v : value) :
  Features.astype_str (Features.astype_str v) = Features.astype_str v.
Proof. destruct v; reflexivity. Qed.

Lemma to_numeric_fillna_idem (v : value) :
  Features.to_numeric_fillna (Features.to_numeric_fillna v)
  = Features.to_numeric_fillna v.
Proof. destruct v; simpl; [ destruct (parse_number s) | | ]; reflexivity. Qed.

Lemma keys_convert_categorical (ci : list nat) : forall df,
  Dict.keys (Features.convert_categorical ci df) = Dict.keys df.
Proof.
  unfold Features.convert_categorical.
  induction ci as [|idx ci IH]; intros df; simpl; [ reflexivity | ].
  rewrite IH.
  destruct (idx <? _)%nat; [ | reflexivity ].
  destruct (nth_error (Dict.keys df) idx); [ | reflexivity ].
  apply keys_map_column.
Qed.

Lemma get_convert_categorical (ci : list nat) : forall df name,
  Dict.get name (Features.convert_categorical ci df)
  = if Features.flagged (Dict.keys df) ci name
    then option_map Features.astype_str (Dict.get name df)
    else Dict.get name df.
Proof.
  unfold Features.convert_categorical.
  induction ci as [|idx ci IH]; intros df name; simpl; [ reflexivity | ].
  rewrite IH. clear IH.
  destruct (nth_error (Dict.keys df) idx) as [col|] eqn:Hnth.
  - assert (Hlt : (idx <? List.length (Dict.keys df))%nat = true).
    { apply Nat.ltb_lt. apply nth_error_Some. congruence. }
    rewrite Hlt, keys_map_column, get_map_column.
    destruct (String.eqb col name); simpl.
    + destruct (Dict.get name df) as [v|]; simpl.
      * rewrite astype_str_idem. destruct (Features.flagged _ _ _); reflexivity.
      * destruct (Features.flagged _ _ _); reflexivity.
    + reflexivity.
  - simpl. destruct (idx <? _)%nat; reflexivity.
Qed.

Lemma columns_at_keys (ci : list nat) (df df' : dict) :
  Dict.keys df = Dict.keys df' ->
  Features.columns_at df ci = Features.columns_at df' ci.
Proof.
  intros Hk. induction ci as [|i ci IH]; simpl; [ reflexivity | ].
  rewrite Hk, IH. reflexivity.
Qed.

Lemma columns_at_ok (ci : list nat) (df : dict) :
  Forall (fun i => (i < List.length (Dict.keys df))%nat) ci ->
  exists cats,
    Features.columns_at df ci = Ok cats
    /\ forall name,
         existsb (String.eqb name) cats
         = Features.flagged (Dict.keys df) ci name.
Proof.
  induction 1 as [|i ci Hi _ (cats & Hcats & Hflag)]; simpl.
  - exists []. split; reflexivity.
  - destruct (nth_error (Dict.keys df) i) as [c|] eqn:Hnth.
    + rewrite Hcats. simpl. exists (c :: cats). split; [ reflexivity | ].
      intros name. simpl. rewrite Hflag, (String.eqb_sym name c). reflexivity.
    + apply nth_error_None in Hnth. lia.
Qed.

Let numeric_step (ci : list nat) (acc : exc dict) (col : string) : exc dict :=
  df <- acc ;;
  cats <- Features.columns_at df ci ;;
  if existsb (String.eqb col) cats then Ok df
  else Ok (Features.map_column col Features.to_numeric_fillna df).

Lemma numeric_fold (ci : list nat) (cats : list string) (l : list string) :
  forall df,
    Features.columns_at df ci = Ok cats ->
    exists df',
      fold_left (numeric_step ci) l (Ok df) = Ok df'
      /\ Dict.keys df' = Dict.keys df
      /\ forall name,
           Dict.get name df'
           = if existsb (String.eqb name) cats then Dict.get name df
             else if existsb (String.eqb name) l
                  then option_map Features.to_numeric_fillna (Dict.get name df)
                  else Dict.get name df.
Proof.
  induction l as [|col l IH]; intros df Hcats; simpl.
  - exists df. repeat split. intros name.
    destruct (existsb _ cats); reflexivity.
  - rewrite Hcats. simpl.
    destruct (existsb (String.eqb col) cats) eqn:Hcol.
    + destruct (IH df Hcats) as (df' & Hfold & Hkeys & Hget).
      exists df'. repeat split; try assumption.
      intros name. rewrite Hget.
      destruct (existsb (String.eqb name) cats) eqn:Hname; [ reflexivity | ].
      destruct (String.eqb_spec name col) as [-> | _]; [ congruence | ].
      reflexivity.
    + set (df1 := Features.map_column col Features.to_numeric_fillna df).
      assert (Hk1 : Dict.keys df1 = Dict.keys df) by apply keys_map_column.
      assert (Hcats1 : Features.columns_at df1 ci = Ok cats).
      { rewrite (columns_at_keys ci df1 df Hk1). exact Hcats. }
      destruct (IH df1 Hcats1) as (df' & Hfold & Hkeys & Hget).
      exists df'. repeat split; try congruence.
      intros name. rewrite Hget. unfold df1. rewrite get_map_column.
      rewrite (String.eqb_sym name col).
      destruct (existsb (String.eqb name) cats) eqn:Hname.
      * destruct (String.eqb_spec col name) as [-> | _]; [ congruence | ].
        reflexivity.
      * destruct (String.eqb col name); simpl; [ | reflexivity ].
        destruct (Dict.get name df) as [v|]; simpl.
        -- rewrite to_numeric_fillna_idem.
           destruct (existsb (String.eqb name) l); reflexivity.
        -- destruct (existsb (String.eqb name) l); reflexivity.
Qed.

Lemma convert_numeric_spec (ci : list nat) (df : dict) :
  Forall (fun i => (i < List.length (Dict.keys df))%nat) ci ->
  exists df',
    Features.convert_numeric ci df = Ok df'
    /\ Dict.keys df' = Dict.keys df
    /\ forall name,
         Dict.get name df'
         = if Features.flagged (Dict.keys df) ci name then Dict.get name df
           else option_map Features.to_numeric_fillna (Dict.get name df).
Proof.
  intros Hci. destruct (columns_at_ok ci df Hci) as (cats & Hcats & Hflag).
  destruct (numeric_fold ci cats (Dict.keys df) df Hcats)
    as (df' & Hfold & Hkeys & Hget).
  exists df'. repeat split; try assumption.
  intros name. rewrite Hget, Hflag.
  destruct (Features.flagged _ _ _); [ reflexivity | ].
  destruct (existsb (String.eqb name) (Dict.keys df)) eqn:Hin; [ reflexivity | ].
  rewrite get_None_notin; [ reflexivity | ].
  intros Hk. apply Bool.not_true_iff_false in Hin. apply Hin.
  apply existsb_exists. exists name. split; [ exact Hk | apply String.eqb_refl ].
Qed.

(** The frame the builder returns for a declared schema: its columns are the
    declared names in their order, and each cell is the computed cell (or the
    default of a name that was not computed) coerced by the kind of its
    column. *)
Lemma builder_cells (st : AppState) (input_data : ArtworkInput)
  (image_features : option dict) (db : DatabaseManager) (features : dict)
  (names : list string) :
  db_manager st = Some db ->
  Features.compute_features db input_data image_features = Ok features ->
  Features.declared_names st = Some names ->
  NoDup names ->
  Forall (fun i => (i < List.length names)%nat) (Features.categorical_positions st) ->
  exists df,
    Features.create_all_57_features st input_data image_features = Ok df
    /\ Dict.keys df = names
    /\ forall name,
         In name names ->
         Dict.get name df
         = Some (Features.coerce
                   (Features.flagged names (Features.categorical_positions st) name)
                   (Features.cell_or_default features name)).
Proof.
  intros Hdb Hcf Hnames Hnd Hci.
  unfold Features.create_all_57_features.
  rewrite Hdb. simpl. rewrite Hcf. simpl.
  unfold Features.align. rewrite Hnames.
  set (ci := Features.categorical_positions st) in *.
  set (df1 := Features.ordered_features names features).
  assert (Hk1 : Dict.keys df1 = names) by now apply ordered_features_keys.
  set (df2 := match Features.declared_categorical st with
              | Some ci0 => Features.convert_categorical ci0 df1
              | None => df1
              end).
  assert (Hdf2 : df2 = Features.convert_categorical ci df1).
  { unfold df2, ci, Features.categorical_positions.
    destruct (Features.declared_categorical st); reflexivity. }
  change (match Features.declared_categorical st with
          | Some ci0 => ci0
          | None => []
          end) with ci.
  assert (Hk2 : Dict.keys df2 = names).
  { rewrite Hdf2, keys_convert_categorical. exact Hk1. }
  destruct (convert_numeric_spec ci df2) as (df3 & Hnum & Hk3 & Hget3).
  { rewrite Hk2. exact Hci. }
  exists df3. rewrite Hnum. simpl. repeat split; [ congruence | ].
  intros name Hin. rewrite Hget3, Hk2, Hdf2, get_convert_categorical, Hk1.
  unfold df1. rewrite ordered_features_get by exact Hin.
  unfold Features.coerce.
  destruct (Features.flagged names ci name); reflexivity.
Qed.

End Coercion.

(** ** The builder on a declared schema *)

Section Builder.

Context {E : Externals}.

Lemma features_dict_keys db input_data img ar apw aph rar :
  Dict.keys (Features.features_dict db input_data img ar apw aph rar)
  = Features.computed_names.
Proof. reflexivity. Qed.

Lemma computed_size_category : In "size_category" Features.computed_names.
Proof. unfold Features.computed_names. repeat first [ left; reflexivity | right ]. Qed.

Lemma computed_year_category : In "year_category" Features.computed_names.
Proof. unfold Features.computed_names. repeat first [ left; reflexivity | right ]. Qed.

Lemma cell_or_default_absent db input_data image_features features name :
  Features.compute_features db input_data image_features = Ok features ->
  ~ In name Features.computed_names ->
  Features.cell_or_default features name = VFloat 0.
Proof.
  intros Hcf Hnotin.
  destruct (compute_features_inv _ _ _ _ Hcf) as (img & ar & apw & aph & rar & ->).
  unfold Features.cell_or_default.
  rewrite get_None_notin by (rewrite features_dict_keys; exact Hnotin).
  unfold Features.fill_default. simpl.
  destruct (String.eqb_spec name "size_category") as [-> | _].
  - exfalso. apply Hnotin. apply computed_size_category.
  - destruct (String.eqb_spec name "year_category") as [-> | _].
    + exfalso. apply Hnotin. apply computed_year_category.
    + reflexivity.
Qed.


(** The builder returns a frame whenever the store is there, the schema is
    declared without repetition, the categorical positions are positions of
    the schema and the groups can be computed. *)
Lemma builder_total (st : AppState) (input_data : ArtworkInput)
  (image_features : option dict) (db : DatabaseManager) (names : list string) :
  db_manager st = Some db ->
  Features.declared_names st = Some names ->
  NoDup names ->
  Forall (fun i => (i < List.length names)%nat) (Features.categorical_positions st) ->
  is_ok (Features.image_cells input_data image_features) = true ->
  height input_data + 1e-8 <> 0 ->
  width input_data + 1e-8 <> 0 ->
  frequency (DB.get_artist_data db (artist input_data)) <> (-1)%Z ->
  exists features df,
    Features.compute_features db input_data image_features = Ok features
    /\ Features.create_all_57_features st input_data image_features = Ok df
    /\ Dict.keys df = names
    /\ forall name,
         In name names ->
         Dict.get name df
         = Some (Features.coerce
                   (Features.flagged names (Features.categorical_positions st) name)
                   (Features.cell_or_default features name)).
Proof.
  intros Hdb Hnames Hnd Hci Himg Hh Hw Hf.
  destruct (compute_features_total db input_data image_features Himg Hh Hw Hf)
    as [features Hcf].
  destruct (builder_cells st input_data image_features db features names
              Hdb Hcf Hnames Hnd Hci) as (df & Hdf & Hkeys & Hget).
  exists features, df. auto.
Qed.

End Builder.

(** C2, as the code has it. For a declared schema without repeated names
    whose categorical positions are positions of the schema, and a request
    whose groups can be computed, the builder returns a frame whose columns
    are exactly the declared names in the declared order; a declared name the
    builder does not compute holds 0.0, printed as text when its position is
    categorical. *)
Theorem builder_matches_schema (E : Externals) (st : AppState)
  (input_data : ArtworkInput) (image_features : option dict)
  (db : DatabaseManager) (names : list string) :
  db_manager st = Some db ->
  Features.declared_names st = Some names ->
  NoDup names ->
  Forall (fun i => (i < List.length names)%nat) (Features.categorical_positions st) ->
  is_ok (Features.image_cells input_data image_features) = true ->
  height input_data + 1e-8 <> 0 ->
  width input_data + 1e-8 <> 0 ->
  frequency (DB.get_artist_data db (artist input_data)) <> (-1)%Z ->
  exists df,
    Features.create_all_57_features st input_data image_features = Ok df
    /\ Dict.keys df = names
    /\ forall name,
         In name names ->
         ~ In name Features.computed_names ->
         Dict.get name df
         = Some (if Features.flagged names (Features.categorical_positions st) name
                 then VStr (str_of_float 0)
                 else VFloat 0).
Proof.
  intros Hdb Hnames Hnd Hci Himg Hh Hw Hf.
  destruct (builder_total st input_data image_features db names
              Hdb Hnames Hnd Hci Himg Hh Hw Hf)
    as (features & df & Hcf & Hdf & Hkeys & Hget).
  exists df. repeat split; try assumption.
  intros name Hin Hnotin. rewrite (Hget name Hin).
  rewrite (cell_or_default_absent _ _ _ _ _ Hcf Hnotin).
  unfold Features.coerce. destruct (Features.flagged _ _ _); reflexivity.
Qed.

Ltac not_computed :=
  let H := fresh in
  intros H; unfold Features.computed_names in H; simpl in H;
  repeat (destruct H as [H | H]; [ discriminate H | ]); exact H.

Ltac distinct_names :=
  repeat constructor; simpl; intuition discriminate.

Lemma example_schema_names :
  Features.declared_names Ex.state
  = Some ["ARTIST"; "MATERIAL"; "width"; "colorfulness_score"; "lot_number"].
Proof. reflexivity. Qed.

Lemma example_schema_positions :
  Forall (fun i => (i < 5)%nat) (Features.categorical_positions Ex.state).
Proof. repeat constructor. Qed.

Lemma builder_matches_schema_witness :
  exists df,
    @Features.create_all_57_features Ex.externals Ex.state Ex.picasso None = Ok df
    /\ Dict.keys df
       = ["ARTIST"; "MATERIAL"; "width"; "colorfulness_score"; "lot_number"]
    /\ forall name,
         In name ["ARTIST"; "MATERIAL"; "width"; "colorfulness_score"; "lot_number"] ->
         ~ In name Features.computed_names ->
         Dict.get name df
         = Some (if Features.flagged
                      ["ARTIST"; "MATERIAL"; "width"; "colorfulness_score"; "lot_number"]
                      (Features.categorical_positions Ex.state) name
                 then VStr (@str_of_float Ex.externals 0)
                 else VFloat 0).
Proof.
  apply (builder_matches_schema Ex.externals Ex.state Ex.picasso None Ex.db).
  - reflexivity.
  - exact example_schema_names.
  - distinct_names.
  - exact example_schema_positions.
  - reflexivity.
  - simpl. lra.
  - simpl. lra.
  - change (150 <> -1)%Z. lia.
Defined.

(** C2, as stated, fails: in the example schema the name MATERIAL is at a
    categorical position and is not computed by the builder; the re-projection
    fills it with the number 0.0, and the returned frame holds the text of
    that number, not "unknown". *)
Lemma absent_categorical_slot_not_unknown :
  Features.flagged
    ["ARTIST"; "MATERIAL"; "width"; "colorfulness_score"; "lot_number"]
    (Features.categorical_positions Ex.state) "MATERIAL" = true
  /\ ~ In "MATERIAL" Features.computed_names
  /\ (exists features,
        Features.compute_features Ex.db Ex.picasso None = Ok features
        /\ Dict.get "MATERIAL" (Features.align Ex.state features) = Some (VFloat 0))
  /\ (forall E : Externals,
        exists df,
          Features.create_all_57_features Ex.state Ex.picasso None = Ok df
          /\ Dict.get "MATERIAL" df = Some (VStr (str_of_float 0)))
  /\ (exists df,
        @Features.create_all_57_features Ex.externals Ex.state Ex.picasso None = Ok df
        /\ Dict.get "MATERIAL" df = Some (VStr "0.0")
        /\ Dict.get "MATERIAL" df <> Some (VStr "unknown")).
Proof.
  assert (Hnot : ~ In "MATERIAL" Features.computed_names) by not_computed.
  assert (Hall : forall E : Externals,
             exists features df,
               Features.compute_features Ex.db Ex.picasso None = Ok features
               /\ Features.create_all_57_features Ex.state Ex.picasso None = Ok df
               /\ Dict.get "MATERIAL" df = Some (VStr (str_of_float 0))).
  { intros E.
    destruct (builder_total Ex.state Ex.picasso None Ex.db _
                eq_refl example_schema_names) as (features & df & Hcf & Hdf & _ & Hget).
    - distinct_names.
    - exact example_schema_positions.
    - reflexivity.
    - simpl. lra.
    - simpl. lra.
    - change (150 <> -1)%Z. lia.
    - exists features, df. repeat split; try assumption.
      rewrite Hget by (simpl; tauto).
      rewrite (cell_or_default_absent _ _ _ _ _ Hcf Hnot). reflexivity. }
  split; [ reflexivity | ]. split; [ exact Hnot | ]. split; [ | split ].
  - destruct (Hall Ex.externals) as (features & _ & Hcf & _ & _).
    exists features. split; [ exact Hcf | ].
    unfold Features.align. rewrite example_schema_names.
    rewrite ordered_features_get by (simpl; tauto).
    rewrite (cell_or_default_absent _ _ _ _ _ Hcf Hnot). reflexivity.
  - intros E. destruct (Hall E) as (_ & df & _ & Hdf & Hget). eauto.
  - destruct (Hall Ex.externals) as (_ & df & _ & Hdf & Hget).
    exists df. split; [ exact Hdf | ]. rewrite Hget. split; [ reflexivity | ].
    intro H. discriminate H.
Qed.

(** ** Prediction *)






(** C3. The model [ArtworkInput] of [backend/main.py] declares no bound on
    year, width or height, so validation accepts every typed body: a request
    with width 0 and year 1000 is not answered with 422; the builder runs on
    it and the request is answered with a prediction. The repository's tests
    expect such a request to be rejected. *)
Theorem zero_width_is_accepted (E : Externals) :
  width Ex.zero_width = 0
  /\ year Ex.zero_width = 1000%Z
  /\ ArtworkInputModel.validate Ex.zero_width = true
  /\ (forall st, Facade.post_predict st Ex.zero_width
                 = Facade.predict_price st Ex.zero_width)
  /\ exists df resp,
       Features.create_all_57_features Ex.state Ex.zero_width None = Ok df
       /\ Facade.post_predict Ex.state Ex.zero_width = Ok resp
       /\ features_used resp = 5%Z.
Proof.
  split; [ reflexivity | ]. split; [ reflexivity | ]. split; [ reflexivity | ].
  split; [ reflexivity | ].
  destruct (builder_total Ex.state Ex.zero_width None Ex.db _
              eq_refl example_schema_names)
    as (features & df & _ & Hdf & _ & _).
  - distinct_names.
  - exact example_schema_positions.
  - reflexivity.
  - simpl. lra.
  - simpl. lra.
  - change (150 <> -1)%Z. lia.
  - exists df. unfold Facade.post_predict, Facade.predict_price.
    rewrite validate_accepts_all. simpl negb. cbv iota.
    rewrite Hdf. eexists. split; [ reflexivity | ]. split; reflexivity.
Qed.

(** The price a prediction reports is the rescaled price of the model's raw
    output for the submitted artist, rounded to two digits. *)
Lemma predict_price_final_price (E : Externals) (st : AppState)
  (artwork : ArtworkInput) (resp : PredictionResponse) :
  Facade.predict_price st artwork = Ok resp ->
  exists db raw,
    db_manager st = Some db
    /\ predicted_price resp
       = py_round (Facade.final_price raw (DB.get_artist_data db (artist artwork))) 2
    /\ confidence resp
       = Facade.confidence_of (frequency (DB.get_artist_data db (artist artwork))).
Proof.
  unfold Facade.predict_price.
  destruct (model_loaded st); simpl; [ | discriminate ].
  destruct (Features.create_all_57_features st artwork None); simpl;
    [ | discriminate ].
  destruct (model st) as [m|]; simpl; [ | discriminate ].
  destruct (m a) as [raw|]; simpl; [ | discriminate ].
  destruct (db_manager st) as [db|]; simpl; [ | discriminate ].
  destruct (Facade.features_count st); simpl; [ | discriminate ].
  intros H. injection H as <-. exists db, raw. repeat split.
Qed.

(** * Further properties of the code *)

(** ** Reference store: seeding *)

(** X1. [DatabaseManager.init_database] seeds only an empty [artists] table:
    running it a second time changes nothing, a store that already has an
    artist is left as it is, and afterwards the table is never empty. *)
Theorem init_database_idempotent (db : DatabaseManager) :
  DB.init_database (DB.init_database db) = DB.init_database db
  /\ artists (DB.init_database db) <> []
  /\ (artists db <> [] -> DB.init_database db = db).
Proof.
  destruct db as [path a t]. unfold DB.init_database. simpl.
  destruct a as [|r a]; simpl.
  - repeat split; try discriminate. intros H. now contradiction H.
  - replace (Z.pos (Pos.of_succ_nat (List.length a)) =? 0)%Z with false
      by reflexivity.
    simpl. repeat split. discriminate.
Qed.

Lemma init_database_idempotent_witness :
  DB.init_database Ex.db = Ex.db.
Proof.
  apply (init_database_idempotent Ex.db). discriminate.
Defined.

Lemma find_Forall {A : Type} (P : A -> Prop) (f : A -> bool) (l : list A) (x : A) :
  Forall P l -> find f l = Some x -> P x.
Proof.
  induction 1 as [|y l Hy _ IH]; simpl; [ discriminate | ].
  destruct (f y); [ intros H; injection H as <-; exact Hy | exact IH ].
Qed.

(** X2. When every stored artist has a frequency of at least 1 and a positive
    median price, so has the record [get_artist_data] returns for any name,
    stored or not; likewise the median of [get_tech_artist_median] is positive
    when the stored medians are. The seeded store is such a store. *)
Theorem lookups_positive (db : DatabaseManager) (name technique : string) :
  Forall (fun r => (1 <= ar_frequency r)%Z /\ 0 < ar_median_price r) (artists db) ->
  Forall (fun r => 0 < tr_median_price r) (technique_artist_medians db) ->
  (1 <= frequency (DB.get_artist_data db name))%Z
  /\ 0 < median_price (DB.get_artist_data db name)
  /\ 0 < ta_median_price (DB.get_tech_artist_median db technique name).
Proof.
  intros Ha Ht. unfold DB.get_artist_data, DB.get_tech_artist_median.
  split; [ | split ].
  - destruct (DB.select_artist db _) as [r|] eqn:Hr; simpl; [ | lia ].
    apply (find_Forall _ _ _ _ Ha Hr).
  - destruct (DB.select_artist db _) as [r|] eqn:Hr; simpl; [ | lra ].
    apply (find_Forall _ _ _ _ Ha Hr).
  - destruct (DB.select_tech_artist db _ _) as [r|] eqn:Hr; simpl; [ | lra ].
    apply (find_Forall _ _ _ _ Ht Hr).
Qed.

Lemma seeded_rows_positive :
  Forall (fun r => (1 <= ar_frequency r)%Z /\ 0 < ar_median_price r) (artists Ex.db)
  /\ Forall (fun r => 0 < tr_median_price r) (technique_artist_medians Ex.db).
Proof. split; repeat constructor; simpl; try lia; lra. Qed.

Lemma lookups_positive_witness :
  (1 <= frequency (DB.get_artist_data Ex.db "Jane Doe"))%Z
  /\ 0 < median_price (DB.get_artist_data Ex.db "Jane Doe")
  /\ 0 < ta_median_price (DB.get_tech_artist_median Ex.db "etching" "Jane Doe").
Proof.
  apply (lookups_positive Ex.db "Jane Doe" "etching").
  - repeat constructor; simpl; try lia; lra.
  - repeat constructor; simpl; lra.
Defined.

(** ** Price Rescaler: order and priors *)

Lemma Rmax_mono (a b c d : R) : a <= c -> b <= d -> Rmax a b <= Rmax c d.
Proof. intros. unfold Rmax. destruct (Rle_dec a b), (Rle_dec c d); lra. Qed.

Lemma price_range_mono (p q : R) :
  p <= q -> Facade.price_range p <= Facade.price_range q.
Proof. intros. unfold Facade.price_range. split_max_min. Qed.

Lemma artist_scaling_mono (p q : R) (freq : Z) (m : R) :
  p <= q -> Facade.artist_scaling p freq m <= Facade.artist_scaling q freq m.
Proof.
  intros H. rewrite !artist_scaling_tier. unfold Spec.tier_price.
  destruct (freq >=? 100)%Z; [ apply Rmax_mono; lra | ].
  destruct (freq >=? 50)%Z; [ apply Rmax_mono; lra | ].
  destruct (freq >=? 20)%Z; apply Rmax_mono; lra.
Qed.

(** X3. For one artist record, the final price never decreases when the
    model's raw output increases. *)
Theorem final_price_monotone (raw1 raw2 : R) (artist_data : ArtistData) :
  raw1 <= raw2 ->
  Facade.final_price raw1 artist_data <= Facade.final_price raw2 artist_data.
Proof.
  intros H. unfold Facade.final_price.
  apply price_range_mono, artist_scaling_mono. unfold Py.expm1.
  destruct H as [H | ->]; [ | lra ].
  pose proof (exp_increasing _ _ H). lra.
Qed.

Lemma final_price_monotone_witness :
  Facade.final_price 1 (mkArtistData 150 50000 25000)
  <= Facade.final_price 2 (mkArtistData 150 50000 25000).
Proof. apply final_price_monotone. lra. Defined.

(** X4. The median price of the artist acts only as a floor, and only from a
    frequency of 20 on: below 20 the final price does not depend on it; from
    20, 50 and 100 on the final price is at least 2%, 5% and 10% of the
    median, capped at 1000000. *)
Theorem median_price_floor (raw : R) (freq : Z) (m m' spread spread' : R) :
  ((freq < 20)%Z ->
   Facade.final_price raw (mkArtistData freq m spread)
   = Facade.final_price raw (mkArtistData freq m' spread'))
  /\ ((20 <= freq)%Z ->
      Rmin (m * 0.02) 1000000 <= Facade.final_price raw (mkArtistData freq m spread))
  /\ ((50 <= freq)%Z ->
      Rmin (m * 0.05) 1000000 <= Facade.final_price raw (mkArtistData freq m spread))
  /\ ((100 <= freq)%Z ->
      Rmin (m * 0.1) 1000000 <= Facade.final_price raw (mkArtistData freq m spread)).
Proof.
  unfold Facade.final_price, Facade.price_range, Facade.artist_scaling. simpl.
  generalize (Py.expm1 raw). intros b.
  repeat split; intros H.
  - replace (100 <=? freq)%Z with false by (symmetry; apply Z.leb_gt; lia).
    replace (50 <=? freq)%Z with false by (symmetry; apply Z.leb_gt; lia).
    replace (20 <=? freq)%Z with false by (symmetry; apply Z.leb_gt; lia).
    reflexivity.
  - replace (20 <=? freq)%Z with true by (symmetry; apply Z.leb_le; lia).
    destruct (100 <=? freq)%Z; [ | destruct (50 <=? freq)%Z ]; split_max_min.
  - replace (50 <=? freq)%Z with true by (symmetry; apply Z.leb_le; lia).
    destruct (100 <=? freq)%Z; split_max_min.
  - replace (100 <=? freq)%Z with true by (symmetry; apply Z.leb_le; lia).
    split_max_min.
Qed.

Lemma median_price_floor_witness :
  Facade.final_price 0 (mkArtistData 1 500 250)
  = Facade.final_price 0 (mkArtistData 1 90000 1)
  /\ Rmin (50000 * 0.1) 1000000
     <= Facade.final_price 0 (mkArtistData 150 50000 25000).
Proof.
  destruct (median_price_floor 0 1 500 90000 250 1) as (H1 & _).
  destruct (median_price_floor 0 150 50000 0 25000 0) as (_ & _ & _ & H4).
  split; [ apply H1; lia | apply H4; lia ].
Defined.



(** ** Feature groups *)

Lemma truediv_inv (x y q : R) : Py.truediv x y = Ok q -> y <> 0 /\ q = x / y.
Proof.
  unfold Py.truediv. destruct (Req_dec_T y 0); [ discriminate | ].
  intros H. injection H as <-. auto.
Qed.

(** What a successful run of the groups tells about its input and result. *)
Lemma compute_features_cells (db : DatabaseManager) (input_data : ArtworkInput)
  (image_features : option dict) (features : dict) :
  Features.compute_features db input_data image_features = Ok features ->
  let w := width input_data in
  let h := height input_data in
  let freq := frequency (DB.get_artist_data db (artist input_data)) in
  exists img,
    Features.image_cells input_data image_features = Ok img
    /\ h + 1e-8 <> 0 /\ w + 1e-8 <> 0 /\ freq <> (-1)%Z
    /\ features
       = Features.features_dict db input_data img (w / (h + 1e-8))
           (w * h / (w + 1e-8)) (w * h / (h + 1e-8)) (1 / IZR (freq + 1)).
Proof.
  intros H w h freq. unfold Features.compute_features, bind in H.
  fold w h freq in H.
  destruct (Features.image_cells _ _) as [img|]; [ | discriminate ].
  destruct (Py.truediv w (h + 1e-8)) as [ar|] eqn:H1; [ | discriminate ].
  destruct (Py.truediv (w * h) (w + 1e-8)) as [apw|] eqn:H2; [ | discriminate ].
  destruct (Py.truediv (w * h) (h + 1e-8)) as [aph|] eqn:H3; [ | discriminate ].
  destruct (Py.truediv 1 (IZR (freq + 1))) as [rar|] eqn:H4; [ | discriminate ].
  injection H as <-.
  apply truediv_inv in H1, H2, H3, H4.
  destruct H1 as [Hh ->], H2 as [Hw ->], H3 as [_ ->], H4 as [Hf ->].
  exists img. repeat split; try assumption.
  intros Hm. apply Hf. rewrite Hm. simpl. reflexivity.
Qed.

Lemma example_features :
  exists features,
    Features.compute_features Ex.db Ex.with_scores None = Ok features.
Proof.
  apply compute_features_total.
  - reflexivity.
  - simpl. lra.
  - simpl. lra.
  - change (1 <> -1)%Z. lia.
Qed.

Ltac by_flags :=
  unfold Py.flag;
  repeat match goal with
         | |- context [PyStr.contains ?a ?b] => destruct (PyStr.contains a b)
         end;
  repeat match goal with
         | |- context [if ?b then _ else _] => is_var b; destruct b
         | |- context [if ?f ?x then _ else _] => is_var x; destruct (f x)
         end;
  simpl; try reflexivity; try lia.

(** X6. The technique aggregates count the four technique flags: the count
    lies in 0..4, the weighted score lies between the count and three times
    the count (at most 8), [has_multiple_techniques] is 1 exactly from a count
    of 2, and the interaction cell is the count times the artist's
    frequency. *)
Theorem technique_aggregates (db : DatabaseManager) (input_data : ArtworkInput)
  (image_features : option dict) (features : dict) :
  Features.compute_features db input_data image_features = Ok features ->
  exists count score,
    Dict.get "technique_count" features = Some (VInt count)
    /\ Dict.get "technique_score" features = Some (VInt score)
    /\ (0 <= count <= 4)%Z
    /\ (count <= score <= 3 * count)%Z
    /\ (score <= 8)%Z
    /\ Dict.get "has_multiple_techniques" features
       = Some (VInt (if (2 <=? count)%Z then 1 else 0))
    /\ Dict.get "technique_artist_interaction" features
       = Some (VInt (count * frequency (DB.get_artist_data db (artist input_data)))).
Proof.
  intros H.
  destruct (compute_features_inv _ _ _ _ H) as (img & ar & apw & aph & rar & ->).
  eexists. eexists.
  split; [ reflexivity | ]. split; [ reflexivity | ].
  split; [ by_flags | ]. split; [ by_flags | ]. split; [ by_flags | ].
  split; [ | reflexivity ].
  change (Dict.get "has_multiple_techniques" _)
    with (Some (VInt (Py.flag
      (1 <? Py.flag (PyStr.contains "etching" (PyStr.lower (technique input_data)))
            + Py.flag (PyStr.contains "lithograph" (PyStr.lower (technique input_data)))
            + Py.flag (PyStr.contains "woodcut" (PyStr.lower (technique input_data)))
            + Py.flag (PyStr.contains "screenprint" (PyStr.lower (technique input_data))))%Z))).
  do 2 f_equal. by_flags.
Qed.

Lemma technique_aggregates_witness :
  exists features count score,
    Features.compute_features Ex.db Ex.with_scores None = Ok features
    /\ Dict.get "technique_count" features = Some (VInt count)
    /\ Dict.get "technique_score" features = Some (VInt score)
    /\ (0 <= count <= 4)%Z.
Proof.
  destruct example_features as [features Hf].
  destruct (technique_aggregates Ex.db Ex.with_scores None features Hf)
    as (count & score & Hc & Hs & Hb & _).
  exists features, count, score. auto.
Defined.

(** X7. The edition score lies in 0..3 and the physical score in -1..2; the
    physical score is -1 exactly for a damaged work without frame and
    certificate, and 2 exactly for an undamaged work with both. *)
Theorem edition_physical_scores (db : DatabaseManager) (input_data : ArtworkInput)
  (image_features : option dict) (features : dict) :
  Features.compute_features db input_data image_features = Ok features ->
  exists e p,
    Dict.get "edition_features" features = Some (VInt e)
    /\ Dict.get "physical_features" features = Some (VInt p)
    /\ (0 <= e <= 3)%Z
    /\ (-1 <= p <= 2)%Z
    /\ (p = (-1)%Z <->
        has_damage input_data = true /\ has_frame input_data = false
        /\ has_certificate input_data = false)
    /\ (p = 2%Z <->
        has_damage input_data = false /\ has_frame input_data = true
        /\ has_certificate input_data = true).
Proof.
  intros H.
  destruct (compute_features_inv _ _ _ _ H) as (img & ar & apw & aph & rar & ->).
  eexists. eexists.
  split; [ reflexivity | ]. split; [ reflexivity | ].
  split; [ by_flags | ]. split; [ by_flags | ].
  unfold Py.flag.
  destruct (has_damage input_data), (has_frame input_data),
    (has_certificate input_data); simpl;
    repeat split; intros; try lia; try tauto; try discriminate;
    repeat match goal with H : _ /\ _ |- _ => destruct H end; discriminate.
Qed.

Lemma edition_physical_scores_witness :
  exists features e p,
    Features.compute_features Ex.db Ex.with_scores None = Ok features
    /\ Dict.get "edition_features" features = Some (VInt e)
    /\ Dict.get "physical_features" features = Some (VInt p)
    /\ (0 <= e <= 3)%Z /\ (-1 <= p <= 2)%Z.
Proof.
  destruct example_features as [features Hf].
  destruct (edition_physical_scores Ex.db Ex.with_scores None features Hf)
    as (e & p & He & Hp & Hbe & Hbp & _).
  exists features, e, p. auto.
Defined.

(** X8. The age flags and the year bucket agree: an antique work (age of at
    least 100) is in the bucket pre_1900 or early_1900s, a modern work (age
    below 20) is in the bucket modern, and a work in the bucket mid_1900s or
    late_1900s is vintage. *)
Theorem age_flags_match_year_bucket (db : DatabaseManager)
  (input_data : ArtworkInput) (image_features : option dict) (features : dict) :
  Features.compute_features db input_data image_features = Ok features ->
  exists bucket,
    Dict.get "year_category" features = Some (VStr bucket)
    /\ (Dict.get "is_antique" features = Some (VInt 1) ->
        bucket = "pre_1900" \/ bucket = "early_1900s")
    /\ (Dict.get "is_modern" features = Some (VInt 1) -> bucket = "modern")
    /\ (bucket = "mid_1900s" \/ bucket = "late_1900s" ->
        Dict.get "is_vintage" features = Some (VInt 1)).
Proof.
  intros H.
  destruct (compute_features_inv _ _ _ _ H) as (img & ar & apw & aph & rar & ->).
  exists (Features.year_category (year input_data)).
  split; [ reflexivity | ].
  change (Dict.get "is_antique" _)
    with (Some (VInt (Features.is_antique (Features.age input_data)))).
  change (Dict.get "is_modern" _)
    with (Some (VInt (Features.is_modern (Features.age input_data)))).
  change (Dict.get "is_vintage" _)
    with (Some (VInt (Features.is_vintage (Features.age input_data)))).
  unfold Features.is_antique, Features.is_modern, Features.is_vintage,
    Features.age, Features.year_category, Py.flag.
  set (y := year input_data).
  destruct (Z.ltb_spec y 1900), (Z.ltb_spec y 1950), (Z.ltb_spec y 1980),
    (Z.ltb_spec y 2000), (Z.leb_spec 100 (2024 - y)), (Z.leb_spec 20 (2024 - y)),
    (Z.ltb_spec (2024 - y) 100), (Z.ltb_spec (2024 - y) 20);
    try lia; simpl; repeat split; intros; auto;
    try discriminate; try (destruct H8; discriminate).
Qed.

Lemma age_flags_match_year_bucket_witness :
  exists features bucket,
    Features.compute_features Ex.db Ex.with_scores None = Ok features
    /\ Dict.get "year_category" features = Some (VStr bucket)
    /\ (Dict.get "is_modern" features = Some (VInt 1) -> bucket = "modern").
Proof.
  destruct example_features as [features Hf].
  destruct (age_flags_match_year_bucket Ex.db Ex.with_scores None features Hf)
    as (bucket & Hb & _ & Hm & _).
  exists features, bucket. auto.
Defined.

(** X9. For an artist whose frequency is not negative, the rarity cell is
    [1 / (frequency + 1)] and lies in (0, 1]; an artist is never flagged both
    rare and popular, and a very popular artist is also flagged popular. *)
Theorem artist_popularity_cells (db : DatabaseManager) (input_data : ArtworkInput)
  (image_features : option dict) (features : dict) :
  Features.compute_features db input_data image_features = Ok features ->
  (0 <= frequency (DB.get_artist_data db (artist input_data)))%Z ->
  exists rarity rare popular very_popular,
    Dict.get "artist_rarity" features = Some (VFloat rarity)
    /\ rarity = 1 / IZR (frequency (DB.get_artist_data db (artist input_data)) + 1)
    /\ 0 < rarity <= 1
    /\ Dict.get "is_rare_artist" features = Some (VInt rare)
    /\ Dict.get "is_popular_artist" features = Some (VInt popular)
    /\ Dict.get "is_very_popular_artist" features = Some (VInt very_popular)
    /\ ~ (rare = 1%Z /\ popular = 1%Z)
    /\ (very_popular = 1%Z -> popular = 1%Z).
Proof.
  intros H Hfreq.
  destruct (compute_features_cells _ _ _ _ H) as (img & _ & _ & _ & _ & ->).
  set (freq := frequency (DB.get_artist_data db (artist input_data))) in *.
  eexists. eexists. eexists. eexists.
  split; [ reflexivity | ]. split; [ reflexivity | ]. split.
  - assert (Hpos : 1 <= IZR (freq + 1)) by (apply IZR_le; lia).
    assert (Hinv : 0 < / IZR (freq + 1)) by (apply Rinv_0_lt_compat; lra).
    unfold Rdiv. rewrite Rmult_1_l. split; [ exact Hinv | ].
    rewrite <- Rinv_1. apply Rinv_le_contravar; lra.
  - split; [ reflexivity | ]. split; [ reflexivity | ]. split; [ reflexivity | ].
    fold freq. unfold Py.flag.
    destruct (Z.leb_spec freq 5), (Z.leb_spec 50 freq), (Z.leb_spec 100 freq);
      split; intros; try lia; try reflexivity; try discriminate.
Qed.

Lemma artist_popularity_cells_witness :
  exists features rarity,
    Features.compute_features Ex.db Ex.with_scores None = Ok features
    /\ Dict.get "artist_rarity" features = Some (VFloat rarity)
    /\ 0 < rarity <= 1.
Proof.
  destruct example_features as [features Hf].
  destruct (artist_popularity_cells Ex.db Ex.with_scores None features Hf)
    as (rarity & rare & popular & very & Hr & _ & Hb & _).
  - change (0 <= 1)%Z. lia.
  - exists features, rarity. auto.
Defined.

(** X10. The market ratio cell is always positive: it is the technique-artist
    median divided by the artist's median when both are positive, and 1
    otherwise. *)
Theorem market_ratio_positive (db : DatabaseManager) (input_data : ArtworkInput)
  (image_features : option dict) (features : dict) :
  Features.compute_features db input_data image_features = Ok features ->
  let tm := ta_median_price
              (DB.get_tech_artist_median db (technique input_data) (artist input_data)) in
  let am := median_price (DB.get_artist_data db (artist input_data)) in
  exists ratio,
    Dict.get "price_vs_tech_artist_median" features = Some (VFloat ratio)
    /\ 0 < ratio
    /\ (0 < tm -> 0 < am -> ratio = tm / am)
    /\ (tm <= 0 \/ am <= 0 -> ratio = 1).
Proof.
  intros H tm am.
  destruct (compute_features_inv _ _ _ _ H) as (img & ar & apw & aph & rar & ->).
  exists (Features.price_vs_tech_artist_median tm am).
  split; [ reflexivity | ].
  unfold Features.price_vs_tech_artist_median.
  destruct (Rlt_dec 0 tm) as [Ht | Ht], (Rlt_dec 0 am) as [Ha | Ha];
    repeat split; intros; try lra; try reflexivity;
    try (apply Rdiv_lt_0_compat; assumption);
    try (match goal with H0 : _ \/ _ |- _ => destruct H0; lra end).
Qed.

Lemma market_ratio_positive_witness :
  exists features ratio,
    Features.compute_features Ex.db Ex.with_scores None = Ok features
    /\ Dict.get "price_vs_tech_artist_median" features = Some (VFloat ratio)
    /\ 0 < ratio.
Proof.
  destruct example_features as [features Hf].
  destruct (market_ratio_positive Ex.db Ex.with_scores None features Hf)
    as (ratio & Hr & Hpos & _).
  exists features, ratio. auto.
Defined.

(** ** Error behaviour of the builder and of the prediction handler *)

(** X11. [predict_price] fails in two ways only: with status 503, exactly when
    no model is loaded, and with status 500; the builder fails with status
    500 only. *)
Theorem prediction_errors (E : Externals) (st : AppState) (artwork : ArtworkInput)
  (image_features : option dict) :
  (Facade.predict_price st artwork = Raise (HTTPException 503)
   <-> model_loaded st = false)
  /\ (forall e, Facade.predict_price st artwork = Raise e ->
                e = HTTPException 503 \/ e = HTTPException 500)
  /\ (forall e, Features.create_all_57_features st artwork image_features = Raise e ->
                e = HTTPException 500).
Proof.
  unfold Facade.predict_price, Features.create_all_57_features, try_except.
  split; [ | split ].
  - destruct (model_loaded st); simpl; [ | tauto ].
    split; [ | discriminate ].
    match goal with |- match ?b with _ => _ end = _ -> _ => destruct b end;
      discriminate.
  - intros e. destruct (model_loaded st); simpl.
    + match goal with |- match ?b with _ => _ end = _ -> _ => destruct b end;
        [ discriminate | intros H; injection H as <-; auto ].
    + intros H; injection H as <-; auto.
  - intros e.
    match goal with |- match ?b with _ => _ end = _ -> _ => destruct b end;
      [ discriminate | intros H; injection H as <-; auto ].
Qed.

Lemma fold_left_raise {A : Type} (f : exc dict -> A -> exc dict) (l : list A)
  (e : pyexn) :
  (forall a, f (Raise e) a = Raise e) -> fold_left f l (Raise e) = Raise e.
Proof. intros Hf. induction l as [|a l IH]; simpl; [ | rewrite Hf ]; auto. Qed.

Lemma columns_at_out_of_range (df : dict) (ci : list nat) :
  Exists (fun i => (List.length (Dict.keys df) <= i)%nat) ci ->
  Features.columns_at df ci = Raise IndexError.
Proof.
  induction ci as [|i ci IH]; intros H; [ inversion H | ].
  simpl. destruct (nth_error (Dict.keys df) i) as [c|] eqn:Hnth.
  - inversion H as [? ? Hi | ? ? Hrest]; subst.
    + apply nth_error_None in Hi. congruence.
    + rewrite (IH Hrest). reflexivity.
  - reflexivity.
Qed.

(** X12. A categorical position beyond the last column makes the builder fail
    with status 500 whenever the frame has a column: the loop that turns
    columns into text skips such a position, the loop that makes the other
    columns numeric does not. *)
Theorem categorical_position_out_of_range (E : Externals) (st : AppState)
  (input_data : ArtworkInput) (image_features : option dict)
  (names : list string) :
  Features.declared_names st = Some names ->
  NoDup names ->
  names <> [] ->
  Exists (fun i => (List.length names <= i)%nat) (Features.categorical_positions st) ->
  Features.create_all_57_features st input_data image_features
  = Raise (HTTPException 500).
Proof.
  intros Hnames Hnd Hne Hex.
  unfold Features.create_all_57_features.
  destruct (db_manager st) as [db|]; simpl; [ | reflexivity ].
  destruct (Features.compute_features db input_data image_features)
    as [features|]; simpl; [ | reflexivity ].
  unfold Features.align. rewrite Hnames.
  set (ci := Features.categorical_positions st) in *.
  set (df1 := Features.ordered_features names features).
  set (df2 := match Features.declared_categorical st with
              | Some ci0 => Features.convert_categorical ci0 df1
              | None => df1
              end).
  assert (Hk2 : Dict.keys df2 = names).
  { unfold df2. destruct (Features.declared_categorical st).
    - rewrite keys_convert_categorical. now apply ordered_features_keys.
    - now apply ordered_features_keys. }
  change (match Features.declared_categorical st with
          | Some ci0 => ci0
          | None => []
          end) with ci.
  unfold Features.convert_numeric. rewrite Hk2.
  destruct names as [|name names]; [ contradiction | ]. simpl.
  rewrite columns_at_out_of_range by (rewrite Hk2; exact Hex). simpl.
  rewrite fold_left_raise; reflexivity.
Qed.

Lemma categorical_position_out_of_range_witness :
  @Features.create_all_57_features Ex.externals
    (mkAppState (Some Ex.constant_model) true
       (Some (mkFeatureInfo (Some ["width"; "height"]) (Some [2%nat]) (Some 2%Z) []))
       (Some Ex.db))
    Ex.picasso None
  = Raise (HTTPException 500).
Proof.
  apply (categorical_position_out_of_range Ex.externals _ Ex.picasso None
           ["width"; "height"]).
  - reflexivity.
  - distinct_names.
  - discriminate.
  - constructor. simpl. lia.
Defined.



(** ** Labels of a prediction *)

Lemma predict_price_response (E : Externals) (st : AppState)
  (artwork : ArtworkInput) (resp : PredictionResponse) :
  Facade.predict_price st artwork = Ok resp ->
  exists db raw n,
    db_manager st = Some db
    /\ Facade.features_count st = Ok n
    /\ resp
       = mkPredictionResponse
           (py_round (Facade.final_price raw (DB.get_artist_data db (artist artwork))) 2)
           (py_round raw 4)
           (Facade.confidence_of (frequency (DB.get_artist_data db (artist artwork))))
           (Facade.popularity_of (frequency (DB.get_artist_data db (artist artwork))))
           "Not provided" n "CatBoost_57_Features".
Proof.
  unfold Facade.predict_price.
  destruct (model_loaded st); simpl; [ | discriminate ].
  destruct (Features.create_all_57_features st artwork None) as [df|]; simpl;
    [ | discriminate ].
  destruct (model st) as [m|]; simpl; [ | discriminate ].
  destruct (m df) as [raw|]; simpl; [ | discriminate ].
  destruct (db_manager st) as [db|]; simpl; [ | discriminate ].
  destruct (Facade.features_count st) as [n|]; simpl; [ | discriminate ].
  intros H. injection H as <-. exists db, raw, n. repeat split.
Qed.

Lemma example_prediction :
  exists resp, @Facade.predict_price Ex.externals Ex.state Ex.picasso = Ok resp.
Proof.
  destruct (@builder_total Ex.externals Ex.state Ex.picasso None Ex.db _
              eq_refl example_schema_names)
    as (features & df & _ & Hdf & _ & _).
  - distinct_names.
  - exact example_schema_positions.
  - reflexivity.
  - simpl. lra.
  - simpl. lra.
  - change (150 <> -1)%Z. lia.
  - unfold Facade.predict_price. simpl negb. cbv iota.
    rewrite Hdf. eexists. reflexivity.
Qed.

(** X14. In every prediction the two labels come from the frequency of the
    same artist record and agree: confidence is LOW exactly when the
    popularity is UNKNOWN (frequency below 5), a VERY_POPULAR artist
    (frequency of at least 50) has confidence HIGH, and a KNOWN artist has
    confidence MEDIUM; the image quality is always "Not provided". *)
Theorem prediction_labels (E : Externals) (st : AppState) (artwork : ArtworkInput)
  (resp : PredictionResponse) :
  Facade.predict_price st artwork = Ok resp ->
  exists db,
    db_manager st = Some db
    /\ let freq := frequency (DB.get_artist_data db (artist artwork)) in
       (confidence resp = "LOW" <-> artist_popularity resp = "UNKNOWN")
       /\ (confidence resp = "LOW" <-> (freq < 5)%Z)
       /\ (artist_popularity resp = "VERY_POPULAR" <-> (50 <= freq)%Z)
       /\ (artist_popularity resp = "VERY_POPULAR" -> confidence resp = "HIGH")
       /\ (artist_popularity resp = "KNOWN" -> confidence resp = "MEDIUM")
       /\ image_quality resp = "Not provided".
Proof.
  intros H.
  destruct (predict_price_response E st artwork resp H)
    as (db & raw & n & Hdb & _ & ->).
  exists db. split; [ exact Hdb | ]. simpl.
  unfold Facade.confidence_of, Facade.popularity_of.
  set (freq := frequency (DB.get_artist_data db (artist artwork))).
  destruct (Z.leb_spec 20 freq), (Z.leb_spec 5 freq), (Z.leb_spec 50 freq),
    (Z.leb_spec 10 freq); try lia;
    repeat split; intros; try reflexivity; try discriminate; try lia.
Qed.

Lemma prediction_labels_witness :
  exists resp db,
    @Facade.predict_price Ex.externals Ex.state Ex.picasso = Ok resp
    /\ db_manager Ex.state = Some db
    /\ image_quality resp = "Not provided".
Proof.
  destruct example_prediction as [resp Hresp].
  destruct (prediction_labels Ex.externals Ex.state Ex.picasso resp Hresp)
    as (db & Hdb & _ & _ & _ & _ & _ & Hq).
  exists resp, db. auto.
Defined.

(** ** [POST /analyze-image] *)



(** ** [GET /model/info] *)

(** X16. [get_model_info] answers 503 exactly when no model is loaded. With a
    loaded model and a schema that has its three keys it reports the full
    feature count but only the first ten feature names. *)
Theorem model_info_lists_ten_names (r2_score : option R) (st : AppState)
  (fi : FeatureInfo) (names : list string) (ci : list nat) (n : Z) :
  (ModelInfo.get_model_info r2_score st = Raise (HTTPException 503)
   <-> model_loaded st = false)
  /\ (model_loaded st = true ->
      truthy_feature_info st = Some fi ->
      feature_names fi = Some names ->
      categorical_indices fi = Some ci ->
      n_features fi = Some n ->
      exists body,
        ModelInfo.get_model_info r2_score st = Ok body
        /\ In ("features_count", JVInt n) body
        /\ In ("feature_names", JVList (map JVStr (firstn 10 names))) body
        /\ (List.length (firstn 10 names) <= 10)%nat
        /\ ((10 <= List.length names)%nat ->
            List.length (firstn 10 names) = 10%nat)).
Proof.
  unfold ModelInfo.get_model_info, ModelInfo.schema_key, Facade.features_count.
  split.
  - destruct (model_loaded st); simpl; [ | tauto ].
    split; [ | discriminate ].
    destruct (truthy_feature_info st) as [fi'|]; simpl.
    + destruct (n_features fi'); simpl; [ | discriminate ].
      destruct (categorical_indices fi'); simpl; [ | discriminate ].
      destruct (feature_names fi'); simpl; discriminate.
    + discriminate.
  - intros Hl Hfi Hnames Hci Hn. rewrite Hl, Hfi, Hn, Hci, Hnames.
    unfold negb, bind.
    eexists. split; [ reflexivity | ].
    split; [ do 2 right; left; reflexivity | ].
    split; [ do 4 right; left; reflexivity | ].
    split; [ apply firstn_le_length | ].
    intros Hlen. rewrite length_firstn. lia.
Qed.

Lemma model_info_lists_ten_names_witness :
  exists body,
    ModelInfo.get_model_info None Ex.state = Ok body
    /\ In ("features_count", JVInt 5) body.
Proof.
  destruct (model_info_lists_ten_names None Ex.state Ex.schema
              ["ARTIST"; "MATERIAL"; "width"; "colorfulness_score"; "lot_number"]
              [0%nat; 1%nat] 5) as [_ H].
  destruct H as (body & Hb & Hn & _); try reflexivity.
  exists body. auto.
Defined.

(** ** Start-up *)

Lemma features_count_of_schema (st : AppState) (fi : FeatureInfo) (n : Z) :
  feature_info st = Some fi -> n_features fi = Some n ->
  Facade.features_count st = Ok n.
Proof.
  intros Hfi Hn. unfold Facade.features_count, truthy_feature_info,
    feature_info_truthy.
  rewrite Hfi, Hn. simpl. rewrite orb_true_r. simpl. rewrite Hn. reflexivity.
Qed.

Lemma load_model_keeps_store (env : Artifacts) (st : AppState) :
  db_manager (snd (Startup.load_model env st)) = db_manager st.
Proof.
  unfold Startup.load_model, Startup.load_model_try, Startup.log_n_features.
  destruct (model_file env) as [[obj|e]|]; simpl; try reflexivity.
  destruct (feature_info_file env) as [[fi|e]|]; simpl; try reflexivity.
  destruct (n_features fi); reflexivity.
Qed.

(** X17. [load_model] returns the flag it leaves in [model_loaded] and never
    touches the store. When it returns [True], the model is set and the
    schema has its feature count, so [GET /health] answers; when the model
    file does not exist, only the flag changes. *)
Theorem load_model_result (env : Artifacts) (st : AppState) (available : bool) :
  let loaded := fst (Startup.load_model env st) in
  let st' := snd (Startup.load_model env st) in
  model_loaded st' = loaded
  /\ db_manager st' = db_manager st
  /\ (loaded = true ->
      exists obj n,
        model_file env = Some (Ok obj)
        /\ model st' = Some (mo_predict obj)
        /\ Facade.features_count st' = Ok n
        /\ Facade.health_check available st'
           = Ok [ ("status", JStr "healthy");
                  ("model_loaded", JBool true);
                  ("features_count", JInt n);
                  ("image_processing", JBool available) ])
  /\ (model_file env = None -> st' = Startup.set_model_loaded false st).
Proof.
  intros loaded st'. split; [ | split; [ apply load_model_keeps_store | split ] ].
  - subst loaded st'. unfold Startup.load_model, Startup.load_model_try, Startup.log_n_features.
    destruct (model_file env) as [[obj|e]|]; simpl; try reflexivity.
    destruct (feature_info_file env) as [[fi|e]|]; simpl; try reflexivity.
    destruct (n_features fi); reflexivity.
  - subst loaded st'. unfold Startup.load_model, Startup.load_model_try, Startup.log_n_features.
    destruct (model_file env) as [[obj|e]|]; simpl; try discriminate.
    destruct (feature_info_file env) as [[fi|e]|]; simpl; try discriminate.
    + destruct (n_features fi) as [n|] eqn:Hn; simpl; [ | discriminate ].
      intros _. exists obj, n. split; [ reflexivity | ]. split; [ reflexivity | ].
      assert (Hc : Facade.features_count
                     (Startup.set_model_loaded true
                        (Startup.set_feature_info (Some fi)
                           (Startup.set_model (Some (mo_predict obj)) st))) = Ok n).
      { apply features_count_of_schema with fi; [ reflexivity | exact Hn ]. }
      split; [ exact Hc | ]. unfold Facade.health_check. rewrite Hc. reflexivity.
    + intros _. eexists obj, _. split; [ reflexivity | ]. split; [ reflexivity | ].
      split; reflexivity.
  - subst st'. unfold Startup.load_model, Startup.load_model_try, Startup.log_n_features.
    intros ->. reflexivity.
Qed.

Lemma load_model_result_witness :
  exists obj n,
    model_file (mkArtifacts (Some (Ok (mkModelObject Ex.constant_model None None)))
                  (Some (Ok Ex.schema)) (Ok ([], [])))
    = Some (Ok obj)
    /\ Facade.features_count
         (snd (Startup.load_model
                 (mkArtifacts (Some (Ok (mkModelObject Ex.constant_model None None)))
                    (Some (Ok Ex.schema)) (Ok ([], [])))
                 Startup.initial))
       = Ok n.
Proof.
  destruct (load_model_result
              (mkArtifacts (Some (Ok (mkModelObject Ex.constant_model None None)))
                 (Some (Ok Ex.schema)) (Ok ([], [])))
              Startup.initial true) as (_ & _ & H & _).
  destruct (H eq_refl) as (obj & n & Hobj & _ & Hn & _).
  exists obj, n. auto.
Defined.

(** X18. A schema file without the key [n_features] makes [load_model] fail
    after the model and the schema were already stored: the flag is [False],
    the new model and the schema stay in the state, and [GET /health] then
    fails with a [KeyError] instead of answering. *)
Theorem load_model_partial_state (env : Artifacts) (st : AppState)
  (obj : ModelObject) (fi : FeatureInfo) (available : bool) :
  model_file env = Some (Ok obj) ->
  feature_info_file env = Some (Ok fi) ->
  n_features fi = None ->
  feature_info_truthy fi = true ->
  let st' := snd (Startup.load_model env st) in
  fst (Startup.load_model env st) = false
  /\ model_loaded st' = false
  /\ model st' = Some (mo_predict obj)
  /\ feature_info st' = Some fi
  /\ Facade.health_check available st' = Raise (KeyError "n_features").
Proof.
  intros Hm Hf Hn Ht st'. subst st'.
  unfold Startup.load_model, Startup.load_model_try, Startup.log_n_features.
  rewrite Hm, Hf. simpl. rewrite Hn. simpl.
  repeat split.
  unfold Facade.health_check, Facade.features_count, truthy_feature_info.
  simpl. rewrite Ht, Hn. reflexivity.
Qed.

Lemma load_model_partial_state_witness :
  Facade.health_check true
    (snd (Startup.load_model
            (mkArtifacts (Some (Ok (mkModelObject Ex.constant_model None None)))
               (Some (Ok (mkFeatureInfo (Some ["width"]) (Some []) None [])))
               (Ok ([], [])))
            Startup.initial))
  = Raise (KeyError "n_features").
Proof.
  apply (load_model_partial_state
           (mkArtifacts (Some (Ok (mkModelObject Ex.constant_model None None)))
              (Some (Ok (mkFeatureInfo (Some ["width"]) (Some []) None [])))
              (Ok ([], [])))
           Startup.initial (mkModelObject Ex.constant_model None None)
           (mkFeatureInfo (Some ["width"]) (Some []) None []) true);
    reflexivity.
Defined.

Lemma init_database_nonempty (db : DatabaseManager) :
  artists (DB.init_database db) <> [].
Proof.
  destruct db as [path a t]. unfold DB.init_database. simpl.
  destruct a as [|r a]; simpl; discriminate.
Qed.

(** X19. After start-up with a database that can be opened, the store is set
    and its [artists] table is not empty, whatever [load_model] did. When the
    database cannot be opened, a server started from the initial state has no
    store, and every prediction fails: with 503 while no model is loaded and
    with 500 otherwise. *)
Theorem lifespan_store (E : Externals) (env : Artifacts) (st : AppState) :
  (forall a t,
     database_file env = Ok (a, t) ->
     exists db,
       db_manager (Startup.lifespan env st) = Some db
       /\ artists db <> [])
  /\ (forall e artwork,
        database_file env = Raise e ->
        db_manager (Startup.lifespan env Startup.initial) = None
        /\ Facade.predict_price (Startup.lifespan env Startup.initial) artwork
           = Raise (HTTPException
                      (if model_loaded (Startup.lifespan env Startup.initial)
                       then 500 else 503))).
Proof.
  unfold Startup.lifespan. split.
  - intros a t Hdb. rewrite load_model_keeps_store.
    unfold Startup.init_database. rewrite Hdb. simpl.
    eexists. split; [ reflexivity | apply init_database_nonempty ].
  - intros e artwork Hdb.
    assert (Hnone : db_manager
                      (snd (Startup.load_model env
                              (snd (Startup.init_database env Startup.initial))))
                    = None).
    { rewrite load_model_keeps_store. unfold Startup.init_database.
      rewrite Hdb. reflexivity. }
    split; [ exact Hnone | ].
    unfold Facade.predict_price, Features.create_all_57_features.
    rewrite Hnone.
    destruct (model_loaded _); reflexivity.
Qed.

Lemma lifespan_store_witness :
  exists db,
    db_manager
      (Startup.lifespan
         (mkArtifacts None None (Ok ([], []))) Startup.initial) = Some db
    /\ artists db <> [].
Proof.
  apply (lifespan_store Ex.externals (mkArtifacts None None (Ok ([], [])))
           Startup.initial) with (a := []) (t := []).
  reflexivity.
Defined.

(** ** The schema file and the kinds of cells *)

Lemma enumerate_in_spec (cats : list string) (cols : list string) :
  forall i j,
    In j (Saving.enumerate_in i cols cats)
    <-> (i <= j)%nat
        /\ exists c, nth_error cols (j - i) = Some c
                     /\ existsb (String.eqb c) cats = true.
Proof.
  induction cols as [|col rest IH]; intros i j; simpl.
  - split; [ tauto | ]. intros (_ & c & Hc & _).
    destruct (j - i)%nat; discriminate.
  - assert (Hrest : In j (Saving.enumerate_in (S i) rest cats)
                    <-> (i < j)%nat
                        /\ exists c, nth_error (col :: rest) (j - i) = Some c
                                     /\ existsb (String.eqb c) cats = true).
    { rewrite IH. split.
      - intros (Hle & c & Hc & Hin). split; [ lia | ].
        exists c. replace (j - i)%nat with (S (j - S i)) by lia. auto.
      - intros (Hlt & c & Hc & Hin). split; [ lia | ].
        exists c. replace (j - i)%nat with (S (j - S i)) in Hc by lia. auto. }
    destruct (existsb (String.eqb col) cats) eqn:Hcol; simpl; rewrite Hrest.
    + split.
      * intros [<- | (Hlt & H)]; [ | split; [ lia | exact H ] ].
        split; [ lia | ]. exists col. rewrite Nat.sub_diag. auto.
      * intros (Hle & c & Hc & Hin).
        destruct (Nat.eq_dec i j) as [-> | Hne]; [ auto | ].
        right. split; [ lia | eauto ].
    + split.
      * intros (Hlt & H). split; [ lia | exact H ].
      * intros (Hle & c & Hc & Hin).
        destruct (Nat.eq_dec i j) as [-> | Hne].
        -- rewrite Nat.sub_diag in Hc. simpl in Hc. injection Hc as <-. congruence.
        -- split; [ lia | eauto ].
Qed.

Lemma enumerate_in_NoDup (cats : list string) (cols : list string) :
  forall i, NoDup (Saving.enumerate_in i cols cats).
Proof.
  induction cols as [|col rest IH]; intros i; simpl; [ constructor | ].
  destruct (existsb (String.eqb col) cats); [ | apply IH ].
  constructor; [ | apply IH ].
  rewrite enumerate_in_spec. intros (Hle & _). lia.
Qed.

Lemma flagged_enumerate_in (names cats : list string) (col : string) :
  Features.flagged names (Saving.enumerate_in 0 names cats) col = true
  <-> In col names /\ In col cats.
Proof.
  unfold Features.flagged. rewrite existsb_exists. split.
  - intros (j & Hj & Hcol). apply enumerate_in_spec in Hj.
    destruct Hj as (_ & c & Hc & Hin). rewrite Nat.sub_0_r in Hc.
    rewrite Hc in Hcol. apply String.eqb_eq in Hcol. subst c.
    split; [ eapply nth_error_In; eauto | ].
    apply existsb_exists in Hin. destruct Hin as (x & Hx & Heq).
    apply String.eqb_eq in Heq. now subst x.
  - intros (Hn & Hc). apply In_nth_error in Hn. destruct Hn as (j & Hj).
    exists j. split.
    + apply enumerate_in_spec. split; [ lia | ].
      exists col. rewrite Nat.sub_0_r. split; [ exact Hj | ].
      apply existsb_exists. exists col. split; [ exact Hc | apply String.eqb_refl ].
    + rewrite Hj. apply String.eqb_refl.
Qed.

(** X20. The schema [fix_model_saving] writes is one the builder accepts: it
    has the three keys the backend reads, its feature count is the number of
    names, its categorical positions are distinct positions of the schema,
    and for a CatBoost model a name is at a categorical position exactly when
    it is a column listed as categorical (no position is categorical for
    another model). *)
Theorem saved_schema_well_formed (best_model_name : string)
  (X_train_cb X_train_sk categorical_cols : list string) :
  let fi := Saving.feature_info_of best_model_name X_train_cb X_train_sk
              categorical_cols in
  exists names ci,
    feature_names fi = Some names
    /\ categorical_indices fi = Some ci
    /\ n_features fi = Some (Z.of_nat (List.length names))
    /\ feature_info_truthy fi = true
    /\ Forall (fun i => (i < List.length names)%nat) ci
    /\ NoDup ci
    /\ forall col,
         Features.flagged names ci col = true
         <-> best_model_name = "catboost" /\ In col names /\ In col categorical_cols.
Proof.
  intros fi. subst fi. unfold Saving.feature_info_of.
  destruct (String.eqb_spec best_model_name "catboost") as [-> | Hne].
  - exists X_train_cb, (Saving.enumerate_in 0 X_train_cb categorical_cols).
    do 4 (split; [ reflexivity | ]). split; [ | split ].
    + apply Forall_forall. intros j Hj. apply enumerate_in_spec in Hj.
      destruct Hj as (_ & c & Hc & _). rewrite Nat.sub_0_r in Hc.
      apply nth_error_Some. congruence.
    + apply enumerate_in_NoDup.
    + intros col. rewrite flagged_enumerate_in. tauto.
  - exists X_train_sk, [].
    do 4 (split; [ reflexivity | ]). split; [ constructor | split ].
    + constructor.
    + intros col. simpl. split; [ discriminate | ]. intros (H & _). contradiction.
Qed.

Section CellKinds.

Context {E : Externals}.

(** X21. In the frame the builder returns for a declared schema, every cell
    at a categorical position is text and every other cell is a number. *)
Theorem builder_cell_kinds (st : AppState) (input_data : ArtworkInput)
  (image_features : option dict) (db : DatabaseManager) (names : list string) :
  db_manager st = Some db ->
  Features.declared_names st = Some names ->
  NoDup names ->
  Forall (fun i => (i < List.length names)%nat) (Features.categorical_positions st) ->
  is_ok (Features.image_cells input_data image_features) = true ->
  height input_data + 1e-8 <> 0 ->
  width input_data + 1e-8 <> 0 ->
  frequency (DB.get_artist_data db (artist input_data)) <> (-1)%Z ->
  exists df,
    Features.create_all_57_features st input_data image_features = Ok df
    /\ forall name,
         In name names ->
         if Features.flagged names (Features.categorical_positions st) name
         then exists s, Dict.get name df = Some (VStr s)
         else (exists z, Dict.get name df = Some (VInt z))
              \/ (exists r, Dict.get name df = Some (VFloat r)).
Proof.
  intros Hdb Hnames Hnd Hci Himg Hh Hw Hf.
  destruct (builder_total st input_data image_features db names
              Hdb Hnames Hnd Hci Himg Hh Hw Hf)
    as (features & df & _ & Hdf & _ & Hget).
  exists df. split; [ exact Hdf | ].
  intros name Hin. rewrite (Hget name Hin). unfold Features.coerce.
  destruct (Features.flagged _ _ _).
  - destruct (Features.cell_or_default features name); simpl; eauto.
  - destruct (Features.cell_or_default features name) as [s| |]; simpl; eauto.
    destruct (parse_number s); eauto.
Qed.

End CellKinds.

Lemma builder_cell_kinds_witness :
  exists df,
    @Features.create_all_57_features Ex.externals Ex.state Ex.picasso None = Ok df
    /\ (exists s, Dict.get "ARTIST" df = Some (VStr s))
    /\ ((exists z, Dict.get "width" df = Some (VInt z))
        \/ (exists r, Dict.get "width" df = Some (VFloat r))).
Proof.
  destruct (@builder_cell_kinds Ex.externals Ex.state Ex.picasso None Ex.db _
              eq_refl example_schema_names)
    as (df & Hdf & Hkind).
  - distinct_names.
  - exact example_schema_positions.
  - reflexivity.
  - simpl. lra.
  - simpl. lra.
  - change (150 <> -1)%Z. lia.
  - exists df. split; [ exact Hdf | ]. split.
    + apply (Hkind "ARTIST"). simpl. tauto.
    + apply (Hkind "width"). simpl. tauto.
Defined.

(** ** Normalization of names *)

Lemma isspace_lower_ascii (c : ascii) :
  PyStr.isspace (PyStr.lower_ascii c) = PyStr.isspace c.
Proof.
  destruct c as [b0 b1 b2 b3 b4 b5 b6 b7].
  destruct b0, b1, b2, b3, b4, b5, b6, b7; reflexivity.
Qed.

Lemma lstrip_lower (s : string) :
  PyStr.lstrip (PyStr.lower s) = PyStr.lower (PyStr.lstrip s).
Proof.
  induction s as [|c s IH]; simpl; [ reflexivity | ].
  rewrite isspace_lower_ascii. destruct (PyStr.isspace c); [ exact IH | reflexivity ].
Qed.

Lemma rstrip_lower (s : string) :
  PyStr.rstrip (PyStr.lower s) = PyStr.lower (PyStr.rstrip s).
Proof.
  induction s as [|c s IH]; simpl; [ reflexivity | ].
  rewrite IH, isspace_lower_ascii.
  destruct (PyStr.rstrip s); simpl; [ | reflexivity ].
  destruct (PyStr.isspace c); reflexivity.
Qed.

Lemma strip_lower (s : string) :
  PyStr.strip (PyStr.lower s) = PyStr.lower (PyStr.strip s).
Proof. unfold PyStr.strip. now rewrite rstrip_lower, lstrip_lower. Qed.

Lemma lstrip_idem (s : string) : PyStr.lstrip (PyStr.lstrip s) = PyStr.lstrip s.
Proof.
  induction s as [|c s IH]; simpl; [ reflexivity | ].
  destruct (PyStr.isspace c) eqn:Hc; [ exact IH | ]. simpl. now rewrite Hc.
Qed.

Lemma rstrip_idem (s : string) : PyStr.rstrip (PyStr.rstrip s) = PyStr.rstrip s.
Proof.
  induction s as [|c s IH]; simpl; [ reflexivity | ].
  destruct (PyStr.rstrip s) as [|a r] eqn:Hr.
  - destruct (PyStr.isspace c) eqn:Hc; simpl; [ reflexivity | now rewrite Hc ].
  - change (PyStr.rstrip (String c (String a r)))
      with (match PyStr.rstrip (String a r) with
            | EmptyString =>
                if PyStr.isspace c then EmptyString else String c EmptyString
            | String a' r' => String c (String a' r')
            end).
    rewrite IH. reflexivity.
Qed.

Lemma rstrip_lstrip (s : string) :
  PyStr.rstrip (PyStr.lstrip s) = PyStr.lstrip (PyStr.rstrip s).
Proof.
  induction s as [|c s IH]; simpl; [ reflexivity | ].
  destruct (PyStr.isspace c) eqn:Hc.
  - rewrite IH. destruct (PyStr.rstrip s); simpl; [ reflexivity | ].
    now rewrite Hc.
  - change (PyStr.rstrip (String c s))
      with (match PyStr.rstrip s with
            | EmptyString =>
                if PyStr.isspace c then EmptyString else String c EmptyString
            | String a' r' => String c (String a' r')
            end).
    rewrite Hc. destruct (PyStr.rstrip s); simpl; now rewrite Hc.
Qed.

Lemma strip_idem (s : string) : PyStr.strip (PyStr.strip s) = PyStr.strip s.
Proof.
  unfold PyStr.strip.
  rewrite (rstrip_lstrip (PyStr.rstrip s)), lstrip_idem, rstrip_idem.
  reflexivity.
Qed.

Lemma payload_artist (artist : string) :
  (if PyStr.truthy artist then PyStr.strip artist else "") = PyStr.strip artist.
Proof. destruct artist; reflexivity. Qed.

(** X22. For a request built by the form, the ARTIST cell of the builder is
    the very key of the store lookup, the lower-cased and trimmed name: the
    form trims the name before it is sent, so the lookup, which only
    lower-cases, and the cell, which lower-cases and trims, agree. *)
Theorem form_artist_key (db : DatabaseManager)
  (artist_name object_type technique signature condition edition_type : string)
  (year : option Z) (width height : option R)
  (has_edition has_certificate has_frame has_damage : bool)
  (expert title : string) (session_colorfulness session_entropy : option R)
  (features : dict) :
  let body := Frontend.payload artist_name object_type technique signature condition
                edition_type year width height has_edition has_certificate
                has_frame has_damage expert title session_colorfulness
                session_entropy in
  Features.compute_features db body None = Ok features ->
  Dict.get "ARTIST" features = Some (VStr (Spec.normalize artist_name))
  /\ DB.get_artist_data db (artist body)
     = match DB.select_artist db (Spec.normalize artist_name) with
       | Some row =>
           mkArtistData (ar_frequency row) (ar_median_price row) (ar_price_std row)
       | None => mkArtistData 1 500 250
       end.
Proof.
  intros body H.
  destruct (compute_features_inv _ _ _ _ H) as (img & ar & apw & aph & rar & ->).
  assert (Hbody : artist body = PyStr.strip artist_name)
    by apply payload_artist.
  split.
  - change (Dict.get "ARTIST" _)
      with (Some (VStr (PyStr.strip (PyStr.lower (artist body))))).
    rewrite Hbody, strip_lower, strip_idem.
    unfold Spec.normalize. rewrite strip_lower. reflexivity.
  - unfold DB.get_artist_data. rewrite Hbody.
    unfold Spec.normalize. rewrite strip_lower. reflexivity.
Qed.

Lemma payload_dimension (x : option R) (default : R) :
  0 < default ->
  (forall v, x = Some v -> 0 <= v) ->
  match x with
  | Some v => if Req_dec_T v 0 then default else v
  | None => default
  end + 1e-8 <> 0.
Proof.
  intros Hd Hx. destruct x as [v|]; [ | lra ].
  specialize (Hx v eq_refl). destruct (Req_dec_T v 0); lra.
Qed.

Lemma form_artist_key_witness :
  exists features,
    Features.compute_features Ex.db
      (Frontend.payload "  Pablo Picasso " "painting" "oil on canvas"
         "hand signed" "excellent" "unique" (Some 1907%Z) (Some 100) (Some 80)
         false true true false "" "" None None) None = Ok features
    /\ Dict.get "ARTIST" features = Some (VStr (Spec.normalize "  Pablo Picasso ")).
Proof.
  destruct (compute_features_total Ex.db
              (Frontend.payload "  Pablo Picasso " "painting" "oil on canvas"
                 "hand signed" "excellent" "unique" (Some 1907%Z) (Some 100)
                 (Some 80) false true true false "" "" None None) None)
    as [features Hf].
  - reflexivity.
  - apply (payload_dimension (Some 80) 60); [ lra | ].
    intros v H. injection H as <-. lra.
  - apply (payload_dimension (Some 100) 50); [ lra | ].
    intros v H. injection H as <-. lra.
  - change (150 <> -1)%Z. lia.
  - exists features. split; [ exact Hf | ].
    apply (form_artist_key Ex.db "  Pablo Picasso " "painting" "oil on canvas"
             "hand signed" "excellent" "unique" (Some 1907%Z) (Some 100) (Some 80)
             false true true false "" "" None None features Hf).
Defined.

(** ** Title word count *)

Lemma split_len_untitled (s : string) :
  PyStr.lower s = "untitled" -> PyStr.split_len s = 1%Z.
Proof.
  intros H.
  repeat (destruct s as [|? s]; [ discriminate H | ];
          simpl in H; injection H as ? H).
  destruct s; [ | discriminate H ].
  unfold PyStr.split_len. simpl.
  repeat match goal with
         | Hc : PyStr.lower_ascii ?c = _ |- _ =>
             let Hs := fresh in
             pose proof (isspace_lower_ascii c) as Hs; rewrite Hc in Hs;
             simpl in Hs; rewrite <- Hs; clear Hc Hs
         end.
  reflexivity.
Qed.

Lemma title_words_agree (u : string) :
  (if PyStr.truthy u && PyStr.truthy u && negb (String.eqb u "Untitled")
   then PyStr.split_len u
   else if String.eqb (PyStr.lower u) "untitled" then 3%Z else PyStr.split_len u)
  = (if String.eqb (PyStr.lower u) "untitled" && negb (String.eqb u "Untitled")
     then 1%Z
     else if String.eqb (PyStr.lower u) "untitled" then 3%Z
          else PyStr.split_len u).
Proof.
  destruct (String.eqb_spec u "Untitled") as [-> | Hu]; [ reflexivity | ].
  destruct (String.eqb_spec (PyStr.lower u) "untitled") as [Hl | Hl]; simpl.
  - assert (Ht : PyStr.truthy u = true) by (destruct u; [ discriminate Hl | reflexivity ]).
    rewrite Ht. simpl. apply split_len_untitled. exact Hl.
  - destruct (PyStr.truthy u); reflexivity.
Qed.

(** X23. The word count the backend uses for a request built by the form is
    the count the form computed, with one exception: a title that spells
    "untitled" in another letter case than "Untitled" counts as 3 words in
    the form and as 1 word in the backend, which ignores the count the form
    sent. *)
Theorem form_title_word_count
  (artist_name object_type technique signature condition edition_type : string)
  (year : option Z) (width height : option R)
  (has_edition has_certificate has_frame has_damage : bool)
  (expert title_text : string) (session_colorfulness session_entropy : option R) :
  let body := Frontend.payload artist_name object_type technique signature
                condition edition_type year width height has_edition
                has_certificate has_frame has_damage expert title_text
                session_colorfulness session_entropy in
  let sent := Frontend.calculate_title_word_count
                (Frontend.str_or title_text "Untitled") in
  title_word_count body = Some sent
  /\ Features.title_words body
     = if String.eqb (PyStr.lower (PyStr.strip title_text)) "untitled"
          && negb (String.eqb (PyStr.strip title_text) "Untitled")
       then 1%Z
       else sent.
Proof.
  intros body sent. split; [ reflexivity | ].
  subst body sent.
  unfold Features.title_words, Frontend.payload, Frontend.str_or,
    Frontend.calculate_title_word_count. simpl.
  destruct title_text as [|c t]; [ reflexivity | ].
  set (s := String c t).
  change (PyStr.truthy s) with true. cbv iota. simpl negb. simpl orb.
  rewrite strip_idem. apply title_words_agree.
Qed.

(** ** The marker of the results page *)


(** ** Validation in the form *)

Lemma Rltb_true (x y : R) : ArtworkInputModel.Rltb x y = true <-> x < y.
Proof.
  unfold ArtworkInputModel.Rltb. destruct (Rlt_dec x y); split; intros;
    try reflexivity; try assumption; try discriminate; contradiction.
Qed.

Lemma Rleb_true (x y : R) : ArtworkInputModel.Rleb x y = true <-> x <= y.
Proof.
  unfold ArtworkInputModel.Rleb. destruct (Rle_dec x y); split; intros;
    try reflexivity; try assumption; try discriminate; contradiction.
Qed.

Lemma truthy_length (s : string) :
  PyStr.truthy s = false <-> String.length s = 0%nat.
Proof. destruct s; simpl; split; intros; try reflexivity; discriminate. Qed.

Lemma artist_errors_nil (a x y z : string) :
  (if negb (PyStr.truthy a) || negb (PyStr.truthy (PyStr.strip a)) then [x]
   else if (String.length (PyStr.strip a) <? 2)%nat then [y]
   else if (100 <? String.length (PyStr.strip a))%nat then [z]
   else []) = []
  <-> (2 <= String.length (PyStr.strip a) <= 100)%nat.
Proof.
  destruct (PyStr.truthy a) eqn:Ha; simpl.
  - destruct (PyStr.truthy (PyStr.strip a)) eqn:Hs; simpl.
    + destruct (Nat.ltb_spec (String.length (PyStr.strip a)) 2),
        (Nat.ltb_spec 100 (String.length (PyStr.strip a)));
        split; intros; try discriminate; try lia; reflexivity.
    + apply truthy_length in Hs. split; [ discriminate | lia ].
  - destruct a; [ | discriminate ]. simpl. split; [ discriminate | lia ].
Qed.

Lemma year_errors_nil (year : option Z) (x y : string) :
  match year with
  | None => [x]
  | Some v => if ((v <? 1200) || (2024 <? v))%Z then [y] else []
  end = []
  <-> exists v, year = Some v /\ (1200 <= v <= 2024)%Z.
Proof.
  destruct year as [v|].
  - destruct (Z.ltb_spec v 1200), (Z.ltb_spec 2024 v); simpl; split;
      try discriminate;
      try (intros (v' & Hv & Hb); injection Hv as <-; first [ lia | reflexivity ]);
      try (intros _; exists v; split; [ reflexivity | lia ]).
  - split; [ discriminate | intros (v' & Hv & _); discriminate ].
Qed.

Lemma dimension_errors_nil (d : option R) (x y z : string) :
  match d with
  | None => [x]
  | Some v =>
      if ArtworkInputModel.Rleb v 0 then [y]
      else if ArtworkInputModel.Rltb 500 v then [z] else []
  end = []
  <-> exists v, d = Some v /\ 0 < v <= 500.
Proof.
  destruct d as [v|].
  - unfold ArtworkInputModel.Rleb, ArtworkInputModel.Rltb.
    destruct (Rle_dec v 0), (Rlt_dec 500 v); split;
      try discriminate;
      try (intros (v' & Hv & Hb); injection Hv as <-; first [ lra | reflexivity ]);
      try (intros _; exists v; split; [ reflexivity | lra ]).
  - split; [ discriminate | intros (v' & Hv & _); discriminate ].
Qed.

Lemma score_errors_nil (v : R) (x : string) :
  (if ArtworkInputModel.Rltb v 0 || ArtworkInputModel.Rltb 1000 v then [x] else [])
  = []
  <-> 0 <= v <= 1000.
Proof.
  unfold ArtworkInputModel.Rltb.
  destruct (Rlt_dec v 0), (Rlt_dec 1000 v); simpl; split;
    try discriminate; try lra; reflexivity.
Qed.

(** The aspect test never raises: each division is guarded by the truth
    value of its divisor. *)
Lemma aspect_test (width height : option R) :
  exists unrealistic,
    match width, height with
    | Some w, Some h =>
        if Req_dec_T w 0 then Ok false
        else if Req_dec_T h 0 then Ok false
        else
          a <- Py.truediv w h ;;
          if ArtworkInputModel.Rltb 10 a then Ok true
          else b <- Py.truediv h w ;; Ok (ArtworkInputModel.Rltb 10 b)
    | _, _ => Ok false
    end = Ok unrealistic
    /\ (unrealistic = false
        <-> forall w h, width = Some w -> height = Some h -> w <> 0 -> h <> 0 ->
                        w / h <= 10 /\ h / w <= 10).
Proof.
  destruct width as [w|], height as [h|];
    try (exists false; split; [ reflexivity | ];
         split; [ intros _ w' h' Hw Hh; discriminate | reflexivity ]).
  destruct (Req_dec_T w 0) as [Hw0 | Hw0].
  { exists false. split; [ reflexivity | ]. split; [ | reflexivity ].
    intros _ w' h' Hw Hh. injection Hw as <-. contradiction. }
  destruct (Req_dec_T h 0) as [Hh0 | Hh0].
  { exists false. split; [ reflexivity | ]. split; [ | reflexivity ].
    intros _ w' h' Hw Hh. injection Hh as <-. contradiction. }
  rewrite (truediv_ok w h Hh0). simpl.
  unfold ArtworkInputModel.Rltb.
  destruct (Rlt_dec 10 (w / h)) as [Ha | Ha].
  - exists true. split; [ reflexivity | ]. split; [ discriminate | ].
    intros H. destruct (H w h eq_refl eq_refl Hw0 Hh0). lra.
  - rewrite (truediv_ok h w Hw0). simpl.
    destruct (Rlt_dec 10 (h / w)) as [Hb | Hb].
    + exists true. split; [ reflexivity | ]. split; [ discriminate | ].
      intros H. destruct (H w h eq_refl eq_refl Hw0 Hh0). lra.
    + exists false. split; [ reflexivity | ]. split; [ | reflexivity ].
      intros _ w' h' Hw Hh _ _. injection Hw as <-. injection Hh as <-. lra.
Qed.

Lemma app_nil_iff {A : Type} (l1 l2 : list A) :
  (l1 ++ l2)%list = [] <-> l1 = [] /\ l2 = [].
Proof.
  split; [ apply app_eq_nil | intros [-> ->]; reflexivity ].
Qed.

(** What [validate_form_inputs] returns, and when its list is empty. *)
Lemma validate_form_inputs_spec (artist_name : string) (year : option Z)
  (width height : option R) (colorfulness_score svd_entropy : R) :
  exists errors,
    Frontend.validate_form_inputs artist_name year width height
      colorfulness_score svd_entropy
    = Ok (match errors with [] => true | _ => false end, errors)
    /\ (List.length errors <= 7)%nat
    /\ (errors = []
        <-> (2 <= String.length (PyStr.strip artist_name) <= 100)%nat
            /\ (exists y, year = Some y /\ (1200 <= y <= 2024)%Z)
            /\ (exists w, width = Some w /\ 0 < w <= 500)
            /\ (exists h, height = Some h /\ 0 < h <= 500)
            /\ (forall w h, width = Some w -> height = Some h ->
                            w <> 0 -> h <> 0 -> w / h <= 10 /\ h / w <= 10)
            /\ 0 <= colorfulness_score <= 1000
            /\ 0 <= svd_entropy <= 1000).
Proof.
  unfold Frontend.validate_form_inputs. cbv zeta.
  destruct (aspect_test width height) as (unrealistic & Hasp & Hratio).
  rewrite Hasp. unfold bind.
  match goal with
  | |- context [(?ea ++ ?ey ++ ?ew ++ ?eh ++ ?er ++ ?ec ++ ?es)%list] =>
      set (e_artist := ea); set (e_year := ey); set (e_width := ew);
      set (e_height := eh); set (e_ratio := er); set (e_color := ec);
      set (e_entropy := es)
  end.
  exists (e_artist ++ e_year ++ e_width ++ e_height ++ e_ratio ++ e_color
          ++ e_entropy)%list.
  split; [ | split ].
  - f_equal. f_equal.
    destruct (e_artist ++ e_year ++ e_width ++ e_height ++ e_ratio ++ e_color
              ++ e_entropy)%list; reflexivity.
  - assert (Ha : (List.length e_artist <= 1)%nat).
    { subst e_artist.
      repeat match goal with
             | |- context [if ?b then _ else _] => destruct b
             end; simpl; lia. }
    assert (Hy : (List.length e_year <= 1)%nat).
    { subst e_year. destruct year; [ | simpl; lia ].
      match goal with |- context [if ?b then _ else _] => destruct b end;
        simpl; lia. }
    assert (Hw : (List.length e_width <= 1)%nat).
    { subst e_width. destruct width; [ | simpl; lia ].
      repeat match goal with
             | |- context [if ?b then _ else _] => destruct b
             end; simpl; lia. }
    assert (Hh : (List.length e_height <= 1)%nat).
    { subst e_height. destruct height; [ | simpl; lia ].
      repeat match goal with
             | |- context [if ?b then _ else _] => destruct b
             end; simpl; lia. }
    assert (Hr : (List.length e_ratio <= 1)%nat).
    { subst e_ratio. destruct unrealistic; simpl; lia. }
    assert (Hc : (List.length e_color <= 1)%nat).
    { subst e_color.
      match goal with |- context [if ?b then _ else _] => destruct b end;
        simpl; lia. }
    assert (He : (List.length e_entropy <= 1)%nat).
    { subst e_entropy.
      match goal with |- context [if ?b then _ else _] => destruct b end;
        simpl; lia. }
    rewrite !length_app. lia.
  - rewrite !app_nil_iff.
    assert (Ha := artist_errors_nil artist_name
                    "Artist name is required"
                    "Artist name must be at least 2 characters"
                    "Artist name must be less than 100 characters").
    assert (Hy := year_errors_nil year "Year is required"
                    "Year must be between 1200 and 2024").
    assert (Hw := dimension_errors_nil width
                    "Width is required and must be greater than 0"
                    "Width is required and must be greater than 0"
                    "Width must be between 0.1 and 500 cm").
    assert (Hh := dimension_errors_nil height
                    "Height is required and must be greater than 0"
                    "Height is required and must be greater than 0"
                    "Height must be between 0.1 and 500 cm").
    assert (Hc := score_errors_nil colorfulness_score
                    "Colorfulness score must be between 0 and 1000").
    assert (He := score_errors_nil svd_entropy
                    "SVD entropy must be between 0 and 1000").
    fold e_artist in Ha. fold e_year in Hy. fold e_width in Hw.
    fold e_height in Hh. fold e_color in Hc. fold e_entropy in He.
    assert (Hr : e_ratio = [] <-> unrealistic = false).
    { subst e_ratio. destruct unrealistic; split; intros; try reflexivity;
        discriminate. }
    rewrite Ha, Hy, Hw, Hh, Hr, Hc, He, Hratio. reflexivity.
Qed.


Lemma get_artist_data_frequency (db : DatabaseManager) (name : string) :
  Forall (fun r => (0 <= ar_frequency r)%Z) (artists db) ->
  (0 <= frequency (DB.get_artist_data db name))%Z.
Proof.
  intros Ha. unfold DB.get_artist_data.
  destruct (DB.select_artist db _) as [r|] eqn:Hr; simpl; [ | lia ].
  apply (find_Forall _ _ _ _ Ha Hr).
Qed.

(** X26. A form that [validate_form_inputs] accepts reaches the builder
    unchanged and within its domain: the request carries the year, width and
    height of the form (the fall-back values 1950, 50 and 60 are never used)
    and the trimmed artist name, and on a store without negative frequencies
    the groups of the builder are computed without an exception. *)
Theorem validated_form_builds (db : DatabaseManager)
  (artist_name object_type technique signature condition edition_type : string)
  (form_year : option Z) (form_width form_height : option R)
  (has_edition has_certificate has_frame has_damage : bool)
  (expert title_text : string) (session_colorfulness session_entropy : R) :
  Frontend.validate_form_inputs artist_name form_year form_width form_height
    session_colorfulness session_entropy = Ok (true, []) ->
  Forall (fun r => (0 <= ar_frequency r)%Z) (artists db) ->
  let body := Frontend.payload artist_name object_type technique signature
                condition edition_type form_year form_width form_height
                has_edition has_certificate has_frame has_damage expert
                title_text (Some session_colorfulness) (Some session_entropy) in
  form_year = Some (year body)
  /\ form_width = Some (width body)
  /\ form_height = Some (height body)
  /\ artist body = PyStr.strip artist_name
  /\ exists features, Features.compute_features db body None = Ok features.
Proof.
  intros Hvalid Hstore body.
  destruct (validate_form_inputs_spec artist_name form_year form_width
              form_height session_colorfulness session_entropy)
    as (errors & Heq & _ & Hiff).
  rewrite Hvalid in Heq. injection Heq as _ Herr. symmetry in Herr.
  apply Hiff in Herr.
  destruct Herr as (_ & (y & Hy & Hyb) & (w & Hw & Hwb) & (h & Hh & Hhb) & _).
  assert (Hyear : year body = y).
  { subst body. unfold Frontend.payload. simpl. rewrite Hy.
    destruct (Z.eqb_spec y 0); [ lia | reflexivity ]. }
  assert (Hwidth : width body = w).
  { subst body. unfold Frontend.payload. simpl. rewrite Hw.
    destruct (Req_dec_T w 0); [ lra | reflexivity ]. }
  assert (Hheight : height body = h).
  { subst body. unfold Frontend.payload. simpl. rewrite Hh.
    destruct (Req_dec_T h 0); [ lra | reflexivity ]. }
  split; [ congruence | ]. split; [ congruence | ]. split; [ congruence | ].
  split; [ apply payload_artist | ].
  apply compute_features_total.
  - reflexivity.
  - rewrite Hheight. lra.
  - rewrite Hwidth. lra.
  - pose proof (get_artist_data_frequency db (artist body) Hstore). lia.
Qed.

Lemma validated_form_builds_witness :
  exists features,
    Features.compute_features Ex.db
      (Frontend.payload "Pablo Picasso" "painting" "oil on canvas" "hand signed"
         "excellent" "unique" (Some 1907%Z) (Some 100) (Some 80)
         false true true false "" "" (Some 0) (Some 0)) None
    = Ok features.
Proof.
  destruct (validate_form_inputs_spec "Pablo Picasso" (Some 1907%Z) (Some 100)
              (Some 80) 0 0) as (errors & Heq & _ & Hiff).
  assert (Herr : errors = []).
  { apply Hiff. split; [ simpl; lia | ].
    split; [ exists 1907%Z; split; [ reflexivity | lia ] | ].
    split; [ exists 100; split; [ reflexivity | lra ] | ].
    split; [ exists 80; split; [ reflexivity | lra ] | ].
    split; [ | lra ].
    intros w h Hw Hh _ _. injection Hw as <-. injection Hh as <-. lra. }
  rewrite Herr in Heq.
  apply (validated_form_builds Ex.db "Pablo Picasso" "painting" "oil on canvas"
           "hand signed" "excellent" "unique" (Some 1907%Z) (Some 100) (Some 80)
           false true true false "" "" 0 0 Heq).
  repeat constructor; simpl; lia.
Defined.
